(** * userauth/models.py: model registry, parameter grids, evaluation and tuning

    A shallow embedding of [src/userauth/models.py].  Python values are
    references into a store of mutable objects (dicts, lists, estimator
    instances); the four functions of the module are computations over that
    store, with the calls into scikit-learn and [utils.metrics] taken as
    parameters and recorded, with their outcome, in a trace. *)

From Stdlib Require Import ZArith String List Lia.
From stdpp Require Import base option list strings.

Set Default Proof Using "Type".
Open Scope string_scope.
Open Scope Z_scope.
Open Scope nat_scope.
Open Scope list_scope.

(** ** Values and objects *)

(** An object identity, as [id(obj)] in Python. *)
Abbreviation loc := nat.

Section Model.

(** [data] stands for what the numeric libraries produce and consume (arrays,
    floating-point scores); [fitted] for what an estimator learns in [fit]. *)
Context {data fitted : Type}.

#[warnings="-register-all"]
Inductive value : Type :=
| VNone
| VBool (b : bool)
| VInt (n : Z)
| VFloat (m e : Z)            (* the float literal m * 10^e *)
| VStr (s : string)
| VTuple (vs : list value)
| VData (d : data)
| VRef (l : loc).

(** Any object with the estimator protocol: its class, the keyword arguments
    its constructor was given, and its learned state ([None] before [fit]). *)
Record estimator : Type := Estimator {
  est_class : string;
  est_params : list (string * value);
  est_fitted : option fitted
}.

Inductive obj : Type :=
| OList (xs : list value)
| ODict (items : list (string * value))
| OEstimator (e : estimator).

Inductive exn : Type :=
| AttributeError (attr : string)
| KeyError (key : string)
| TypeError
| LibraryError (msg : string)
| Unmodelled.

(** The search object built by [GridSearchCV(estimator, param_grid,
    scoring=..., cv=..., n_jobs=...)]. It is local to [tune_models]. *)
Record grid_search : Type := GridSearchCV {
  gs_estimator : value;
  gs_param_grid : value;
  gs_scoring : value;
  gs_cv : value;
  gs_n_jobs : value
}.

(** Calls that leave the module. *)
Inductive call : Type :=
| CFit (model X y : value)
| CPredict (model X : value)
| CPredictProba (model X : value)
| CAccuracyScore (y_true y_pred : value)
| CClassificationReport (y_true y_pred : value)
| CColumn (a : value) (j : Z)
| CCustomRocAuc (y_true y_score : value)
| CSearchFit (gs : grid_search) (X y : value).

Inductive event : Type :=
| ECall (c : call) (outcome : exn + value)
| EPrint (line : string).

Record state : Type := State {
  heap : list obj;
  trace : list event
}.

(** ** Collaborators (scikit-learn, numpy, [utils.metrics], [str]) *)

Record library : Type := Library {
  (* estimator.fit(X, y): the estimator's state afterwards, and the exception
     raised, if any *)
  est_fit : list obj -> estimator -> value -> value -> estimator * option exn;
  est_predict : list obj -> estimator -> value -> exn + value;
  est_predict_proba : list obj -> estimator -> value -> exn + value;
  accuracy_score : list obj -> value -> value -> exn + value;
  classification_report : list obj -> value -> value -> exn + value;
  (* a[:, j] *)
  column : list obj -> value -> Z -> exn + value;
  custom_roc_auc : list obj -> value -> value -> exn + (value * value * value);
  (* GridSearchCV.fit: best_estimator_ and best_params_ *)
  search_fit : list obj -> grid_search -> value -> value ->
               exn + (estimator * list (string * value));
  py_str : list obj -> value -> string
}.

Context (lib : library).

(** ** Computations: store, trace and exceptions *)

Inductive result (A : Type) : Type :=
| Ok (a : A)
| Raise (e : exn).
Arguments Ok {A} a.
Arguments Raise {A} e.

Definition M (A : Type) : Type := state -> result A * state.

Definition ret {A} (a : A) : M A := fun s => (Ok a, s).

Definition bind {A B} (c : M A) (k : A -> M B) : M B :=
  fun s => match c s with
           | (Ok a, s') => k a s'
           | (Raise e, s') => (Raise e, s')
           end.

Definition raise {A} (e : exn) : M A := fun s => (Raise e, s).

Notation "'let*' x ':=' c 'in' k" := (bind c (fun x => k))
  (at level 10, x pattern, c at level 100, k at level 200).
Notation "c '>>' k" := (bind c (fun _ => k))
  (at level 100, k at level 200, right associativity).

Definition alloc (o : obj) : M value :=
  fun s => (Ok (VRef (length (heap s))), State (heap s ++ [o]) (trace s)).

Definition emit (ev : event) : M unit :=
  fun s => (Ok tt, State (heap s) (trace s ++ [ev])).

(** print(line) *)
Definition print (line : string) : M unit := emit (EPrint line).

(** ** Dicts: insertion-ordered, one entry per key *)

Fixpoint dict_get {V} (d : list (string * V)) (k : string) : option V :=
  match d with
  | [] => None
  | (k', v) :: d' => if String.eqb k' k then Some v else dict_get d' k
  end.

(** d[k] = v keeps the position of an existing key and appends a new one. *)
Fixpoint dict_set {V} (d : list (string * V)) (k : string) (v : V)
  : list (string * V) :=
  match d with
  | [] => [(k, v)]
  | (k', v') :: d' =>
      if String.eqb k' k then (k', v) :: d' else (k', v') :: dict_set d' k v
  end.

Definition dict_keys {V} (d : list (string * V)) : list string := fst <$> d.

(** A dict display {k1: v1, ...}. *)
Definition dict_of_list {V} (kvs : list (string * V)) : list (string * V) :=
  fold_left (fun d kv => dict_set d (fst kv) (snd kv)) kvs [].

Definition new_dict (kvs : list (string * value)) : M value :=
  alloc (ODict (dict_of_list kvs)).

Definition new_list (xs : list value) : M value := alloc (OList xs).

Definition lookup_obj (h : list obj) (v : value) : option obj :=
  match v with
  | VRef l => h !! l
  | _ => None
  end.

(** d.items(); only a dict has the method. *)
Definition items (d : value) : M (list (string * value)) :=
  fun s => match lookup_obj (heap s) d with
           | Some (ODict kvs) => (Ok kvs, s)
           | _ => (Raise (AttributeError "items"), s)
           end.

(** k in d, for a dict d. On another kind of container Python's answer
    depends on the elements' own comparison; that is left out. *)
Definition contains (d : value) (k : string) : M bool :=
  fun s => match lookup_obj (heap s) d with
           | Some (ODict kvs) => (Ok (bool_decide (is_Some (dict_get kvs k))), s)
           | _ => (Raise Unmodelled, s)
           end.

(** d[k] *)
Definition getitem (d : value) (k : string) : M value :=
  fun s => match lookup_obj (heap s) d with
           | Some (ODict kvs) =>
               match dict_get kvs k with
               | Some v => (Ok v, s)
               | None => (Raise (KeyError k), s)
               end
           | _ => (Raise Unmodelled, s)
           end.

(** d[k] = v *)
Definition setitem (d : value) (k : string) (v : value) : M unit :=
  fun s => match d, lookup_obj (heap s) d with
           | VRef l, Some (ODict kvs) =>
               (Ok tt, State (<[l := ODict (dict_set kvs k v)]> (heap s)) (trace s))
           | _, _ => (Raise Unmodelled, s)
           end.

(** ** Calls into the libraries *)

Definition log_call (c : call) (r : exn + value) : M value :=
  emit (ECall c r) >>
  match r with
  | inl e => raise e
  | inr v => ret v
  end.

(** model.fit(X, y): mutates the estimator in place and returns it. *)
Definition fit (model X y : value) : M value :=
  fun s => match model, lookup_obj (heap s) model with
           | VRef l, Some (OEstimator e) =>
               let '(e', failure) := est_fit lib (heap s) e X y in
               log_call (CFit model X y)
                        (match failure with Some ex => inl ex | None => inr model end)
                        (State (<[l := OEstimator e']> (heap s)) (trace s))
           | _, _ => log_call (CFit model X y) (inl (AttributeError "fit")) s
           end.

(** model.predict(X) *)
Definition predict (model X : value) : M value :=
  fun s => match lookup_obj (heap s) model with
           | Some (OEstimator e) =>
               log_call (CPredict model X) (est_predict lib (heap s) e X) s
           | _ => log_call (CPredict model X) (inl (AttributeError "predict")) s
           end.

(** model.predict_proba(X) *)
Definition predict_proba (model X : value) : M value :=
  fun s => match lookup_obj (heap s) model with
           | Some (OEstimator e) =>
               log_call (CPredictProba model X) (est_predict_proba lib (heap s) e X) s
           | _ => log_call (CPredictProba model X)
                           (inl (AttributeError "predict_proba")) s
           end.

Definition call_accuracy_score (y_true y_pred : value) : M value :=
  fun s => log_call (CAccuracyScore y_true y_pred)
                    (accuracy_score lib (heap s) y_true y_pred) s.

Definition call_classification_report (y_true y_pred : value) : M value :=
  fun s => log_call (CClassificationReport y_true y_pred)
                    (classification_report lib (heap s) y_true y_pred) s.

(** a[:, j] *)
Definition call_column (a : value) (j : Z) : M value :=
  fun s => log_call (CColumn a j) (column lib (heap s) a j) s.

(** fpr, tpr, auc = custom_roc_auc(y_true, y_score) *)
Definition call_custom_roc_auc (y_true y_score : value) : M (value * value * value) :=
  fun s => match custom_roc_auc lib (heap s) y_true y_score with
           | inl e => (Raise e, State (heap s)
                         (trace s ++ [ECall (CCustomRocAuc y_true y_score) (inl e)]))
           | inr (fpr, tpr, auc) =>
               (Ok (fpr, tpr, auc),
                State (heap s)
                      (trace s ++ [ECall (CCustomRocAuc y_true y_score)
                                         (inr (VTuple [fpr; tpr; auc]))]))
           end.

(** grid_search.fit(X, y), then grid_search.best_estimator_ and
    grid_search.best_params_: the search leaves the estimator it was given
    alone and puts the refitted winner in a new object. *)
Definition fit_search (gs : grid_search) (X y : value) : M (value * value) :=
  fun s => match search_fit lib (heap s) gs X y with
           | inl e => (Raise e, State (heap s)
                         (trace s ++ [ECall (CSearchFit gs X y) (inl e)]))
           | inr (best, params) =>
               (let* best_estimator := alloc (OEstimator best) in
                let* best_params := new_dict params in
                emit (ECall (CSearchFit gs X y) (inr best_estimator)) >>
                ret (best_estimator, best_params)) s
           end.

(** str(v), as print and an f-string field apply it. *)
Definition str (v : value) : M string :=
  fun s => (Ok (py_str lib (heap s) v), s).

(** ** Loops *)

(** for name, model in kvs: body. A body that yields [Some v] has executed
    `return v`, which ends the loop and the function. *)
Fixpoint for_items (body : string -> value -> M (option value))
    (kvs : list (string * value)) : M (option value) :=
  match kvs with
  | [] => ret None
  | (name, model) :: rest =>
      let* r := body name model in
      match r with
      | Some v => ret (Some v)
      | None => for_items body rest
      end
  end.

(** The value a function call yields: that of the `return` reached, or None
    when control falls off the end of the body. *)
Definition returned (r : option value) : M value :=
  match r with
  | Some v => ret v
  | None => ret VNone
  end.

(** ** The module *)

(** The constructor of an estimator class, called with keyword arguments: it
    only records them. *)
Definition new_estimator (cls : string) (kwargs : list (string * value)) : M value :=
  alloc (OEstimator (Estimator cls kwargs None)).

Definition define_models : M value :=
  let* rf := new_estimator "RandomForestClassifier" [("random_state", VInt 1234)] in
  let* knn := new_estimator "KNeighborsClassifier" [] in
  let* mlp := new_estimator "MLPClassifier" [("random_state", VInt 1234)] in
  new_dict [("Random Forest", rf); ("KNN", knn); ("MLP", mlp)].

(** A dict display whose values are list displays. *)
Fixpoint new_grid (params : list (string * list value))
  : M (list (string * value)) :=
  match params with
  | [] => ret []
  | (k, candidates) :: rest =>
      let* v := new_list candidates in
      let* kvs := new_grid rest in
      ret ((k, v) :: kvs)
  end.

Definition define_param_grid : M value :=
  let* rf := (let* kvs := new_grid [
      ("n_estimators", [VInt 10; VInt 50; VInt 100; VInt 200]);
      ("max_depth", [VInt 5; VInt 10; VInt 20; VNone]);
      ("max_features", [VStr "sqrt"; VStr "log2"; VNone]);
      ("min_samples_split", [VInt 2; VInt 5; VInt 10]);
      ("min_samples_leaf", [VInt 1; VInt 2; VInt 4]);
      ("bootstrap", [VBool true; VBool false])] in new_dict kvs) in
  let* knn := (let* kvs := new_grid [
      ("n_neighbors", [VInt 3; VInt 5; VInt 10; VInt 15; VInt 20]);
      ("weights", [VStr "uniform"; VStr "distance"]);
      ("algorithm", [VStr "auto"; VStr "ball_tree"; VStr "kd_tree"; VStr "brute"]);
      ("leaf_size", [VInt 10; VInt 30; VInt 50]);
      ("p", [VInt 1; VInt 2])] in new_dict kvs) in
  let* mlp := (let* kvs := new_grid [
      ("hidden_layer_sizes", [VTuple [VInt 50]; VTuple [VInt 100];
                              VTuple [VInt 100; VInt 50];
                              VTuple [VInt 150; VInt 100; VInt 50]]);
      ("solver", [VStr "adam"; VStr "sgd"; VStr "lbfgs"]);
      ("activation", [VStr "relu"; VStr "tanh"; VStr "logistic"]);
      ("alpha", [VFloat 1 (-4); VFloat 1 (-3); VFloat 1 (-2); VFloat 1 (-1)]);
      ("learning_rate", [VStr "constant"; VStr "invscaling"; VStr "adaptive"]);
      ("max_iter", [VInt 500; VInt 1000; VInt 2000])] in new_dict kvs) in
  new_dict [("Random Forest", rf); ("KNN", knn); ("MLP", mlp)].

(** The body of the loop of [train_and_evaluate]. *)
Definition evaluate_model (results trained_models X_train X_test y_train y_test : value)
    (from_loaded : bool) (name : string) (model : value) : M (option value) :=
  (if negb from_loaded then fit model X_train y_train >> ret tt else ret tt) >>
  setitem trained_models name model >>
  let* y_pred := predict model X_test in
  let* acc := call_accuracy_score y_test y_pred in
  let* record := new_dict [("accuracy", acc)] in
  setitem results name record >>
  print ("--- " ++ name ++ " ---") >>
  let* report := call_classification_report y_test y_pred in
  let* text := str report in
  print text >>
  let* proba := predict_proba model X_test in
  let* y_scores := call_column proba 1 in
  let* (fpr, tpr, auc) := call_custom_roc_auc y_test y_scores in
  let* r := getitem results name in
  setitem r "fpr" fpr >>
  let* r := getitem results name in
  setitem r "tpr" tpr >>
  let* r := getitem results name in
  setitem r "auc" auc >>
  ret None.

Definition train_and_evaluate (models X_train X_test y_train y_test : value)
    (from_loaded : bool) : M value :=
  let* results := new_dict [] in
  let* trained_models := new_dict [] in
  let* kvs := items models in
  let* r := for_items (evaluate_model results trained_models
                         X_train X_test y_train y_test from_loaded) kvs in
  match r with
  | Some v => ret v
  | None => ret (VTuple [results; trained_models])
  end.

(** The body of the loop of [tune_models]; the `return best_models` of line
    109 sits in its else branch. *)
Definition tune_model (best_models param_grids X_train y_train : value)
    (name : string) (model : value) : M (option value) :=
  let* has_grid := contains param_grids name in
  if (has_grid : bool) then
    print ("Tuning " ++ name ++ "...") >>
    let* grid := getitem param_grids name in
    let grid_search := GridSearchCV model grid (VStr "roc_auc") (VInt 3) (VInt (-1)) in
    let* (best_estimator, best_params) := fit_search grid_search X_train y_train in
    setitem best_models name best_estimator >>
    let* text := str best_params in
    print ("Best parameters for " ++ name ++ ": " ++ text) >>
    ret None
  else
    setitem best_models name model >>
    ret (Some best_models).

Definition tune_models (models param_grids X_train y_train : value) : M value :=
  let* best_models := new_dict [] in
  let* kvs := items models in
  let* r := for_items (tune_model best_models param_grids X_train y_train) kvs in
  returned r.

(** ** What a run can be asked afterwards *)

(** A call that raised. *)
Definition failed (ev : event) : bool :=
  match ev with
  | ECall _ (inl _) => true
  | _ => false
  end.

(** A call of [fit] on a model, whatever came of it. *)
Definition is_fit (ev : event) : bool :=
  match ev with
  | ECall (CFit _ _ _) _ => true
  | _ => false
  end.

(** What the run from [s] to [s'] added to the trace. *)
Definition events_since (s s' : state) : list event :=
  drop (length (trace s)) (trace s').

(** How many candidates a parameter grid lists for each of its parameters,
    in the order of the grid. *)
Fixpoint candidate_counts (h : list obj) (grid : list (string * value))
  : option (list nat) :=
  match grid with
  | [] => Some []
  | (_, candidates) :: rest =>
      match lookup_obj h candidates, candidate_counts h rest with
      | Some (OList xs), Some ns => Some (length xs :: ns)
      | _, _ => None
      end
  end.

(** grids[name], when [grids] is a dict of dicts. *)
Definition grid_of (h : list obj) (grids : value) (name : string)
  : option (list (string * value)) :=
  match lookup_obj h grids with
  | Some (ODict gs) =>
      match dict_get gs name with
      | Some g =>
          match lookup_obj h g with
          | Some (ODict grid) => Some grid
          | _ => None
          end
      | None => None
      end
  | _ => None
  end.

Definition grid_counts (h : list obj) (grids : value) (name : string)
  : option (list nat) :=
  grid_of h grids name ≫= candidate_counts h.

(** The number of combinations the exhaustive search goes through: the
    product of the numbers of candidates. *)
Definition grid_combinations (h : list obj) (grids : value) (name : string)
  : option nat :=
  foldr Nat.mul 1 <$> grid_counts h grids name.

(** The structure of a value: what is left of it when every reference is
    replaced by the object it refers to. *)
#[warnings="-register-all"]
Inductive tree : Type :=
| TLeaf (v : value)
| TTuple (ts : list tree)
| TList (ts : list tree)
| TDict (kts : list (string * tree))
| TEstimator (cls : string) (params : list (string * tree)) (learned : option fitted).

(** [snapshot n h v] reads the structure of [v] out of the store [h], down to
    depth [n]; [None] when a reference dangles or the structure is deeper. *)
Fixpoint snapshot (fuel : nat) (h : list obj) (v : value) : option tree :=
  match fuel with
  | 0 => None
  | S n =>
      let entries kvs := mapM (fun kv => pair (fst kv) <$> snapshot n h (snd kv)) kvs in
      match v with
      | VTuple vs => TTuple <$> mapM (snapshot n h) vs
      | VRef l =>
          match h !! l with
          | Some (OList xs) => TList <$> mapM (snapshot n h) xs
          | Some (ODict kvs) => TDict <$> entries kvs
          | Some (OEstimator e) =>
              (fun ps => TEstimator (est_class e) ps (est_fitted e))
                <$> entries (est_params e)
          | None => None
          end
      | _ => Some (TLeaf v)
      end
  end.

(** The identities of the objects [snapshot n h v] goes through. *)
Fixpoint footprint (fuel : nat) (h : list obj) (v : value) : list loc :=
  match fuel with
  | 0 => []
  | S n =>
      match v with
      | VTuple vs => flat_map (footprint n h) vs
      | VRef l =>
          l :: match h !! l with
               | Some (OList xs) => flat_map (footprint n h) xs
               | Some (ODict kvs) => flat_map (fun kv => footprint n h (snd kv)) kvs
               | Some (OEstimator e) =>
                   flat_map (fun kv => footprint n h (snd kv)) (est_params e)
               | None => []
               end
      | _ => []
      end
  end.

(** Two runs of a constructor yield the same structure. *)
Definition same_structure (c : M value) (s1 s2 : state) : Prop :=
  exists v1 s1' v2 s2' t,
    c s1 = (Ok v1, s1') /\ c s2 = (Ok v2, s2') /\
    snapshot 8 (heap s1') v1 = Some t /\ snapshot 8 (heap s2') v2 = Some t.

(** A run that only allocates: it prints and calls nothing, changes no
    object that exists, and all that its result is made of is new. *)
Definition only_allocates (c : M value) (s : state) : Prop :=
  exists v s',
    c s = (Ok v, s') /\
    trace s' = trace s /\
    take (length (heap s)) (heap s') = heap s /\
    is_Some (snapshot 8 (heap s') v) /\
    Forall (fun l => length (heap s) <= l) (footprint 8 (heap s') v).

Definition is_estimator (o : obj) : bool :=
  match o with
  | OEstimator _ => true
  | _ => false
  end.

(** What one iteration of [train_and_evaluate] obtains from the libraries. *)
Record evaluation : Type := Evaluation {
  ev_y_pred : value;
  ev_acc : value;
  ev_report : value;
  ev_text : string;
  ev_proba : value;
  ev_y_scores : value;
  ev_fpr : value;
  ev_tpr : value;
  ev_auc : value
}.

(** The calls and prints of an iteration in which nothing raises, in order. *)
Definition evaluation_events (X_train X_test y_train y_test : value)
    (from_loaded : bool) (kv : string * value) (e : evaluation) : list event :=
  (if from_loaded then [] else [ECall (CFit (snd kv) X_train y_train) (inr (snd kv))]) ++
  [ECall (CPredict (snd kv) X_test) (inr (ev_y_pred e));
   ECall (CAccuracyScore y_test (ev_y_pred e)) (inr (ev_acc e));
   EPrint ("--- " ++ fst kv ++ " ---");
   ECall (CClassificationReport y_test (ev_y_pred e)) (inr (ev_report e));
   EPrint (ev_text e);
   ECall (CPredictProba (snd kv) X_test) (inr (ev_proba e));
   ECall (CColumn (ev_proba e) 1) (inr (ev_y_scores e));
   ECall (CCustomRocAuc y_test (ev_y_scores e))
         (inr (VTuple [ev_fpr e; ev_tpr e; ev_auc e]))].

(** The record it leaves in [results]. *)
Definition evaluation_record (e : evaluation) : list (string * value) :=
  [("accuracy", ev_acc e); ("fpr", ev_fpr e); ("tpr", ev_tpr e); ("auc", ev_auc e)].

(** In the store [h], the dict [results] holds the record of [e] under the
    name of [kv]. *)
Definition evaluated (h : list obj) (results : list (string * value))
    (kv : string * value) (e : evaluation) : Prop :=
  exists l, dict_get results (fst kv) = Some (VRef l) /\
            h !! l = Some (ODict (evaluation_record e)).

(** The objects of [h] are still in [h'] as they were, but for the two dicts
    at [lr] and [lt] and, when models are fitted, the estimators. *)
Definition frames (lr lt : loc) (from_loaded : bool) (h h' : list obj) : Prop :=
  length h <= length h' /\
  forall l o, h !! l = Some o -> l <> lr -> l <> lt ->
              from_loaded = true \/ is_estimator o = false ->
              h' !! l = Some o.

(** ** Moving a structure to another place in the store *)

(** [shift_value n v]: [v] with every identity in it moved up by [n]. *)
Fixpoint shift_value (n : nat) (v : value) : value :=
  match v with
  | VRef l => VRef (n + l)
  | VTuple vs => VTuple (shift_value n <$> vs)
  | _ => v
  end.

Definition shift_items (n : nat) (kvs : list (string * value)) : list (string * value) :=
  (fun kv => (fst kv, shift_value n (snd kv))) <$> kvs.

Definition shift_obj (n : nat) (o : obj) : obj :=
  match o with
  | OList xs => OList (shift_value n <$> xs)
  | ODict kvs => ODict (shift_items n kvs)
  | OEstimator e => OEstimator (Estimator (est_class e) (shift_items n (est_params e))
                                          (est_fitted e))
  end.

(** What a computation that only allocates returns and allocates, as a
    function of where the store it is given ends: of the length [n] of the
    part that was there before, and of the number [k] of objects allocated
    since. *)
Definition layout (A : Type) : Type := nat -> nat -> A * list obj.

Definition builds {A} (c : M A) (f : layout A) : Prop :=
  forall h new t,
    c (State (h ++ new) t) =
    (Ok (fst (f (length h) (length new))),
     State (h ++ new ++ snd (f (length h) (length new))) t).

(** A constructor does the same from any state as from the empty one, up to
    the place of the objects it allocates. *)
Definition relocates (c : M value) (v0 : value) (new0 : list obj) : Prop :=
  forall s, c s = (Ok (shift_value (length (heap s)) v0),
                   State (heap s ++ (shift_obj (length (heap s)) <$> new0)) (trace s)).

(** ** Properties of whole runs *)

(** What a computation adds to the trace, whatever the state it starts in,
    satisfies [Q], which may depend on how the computation ends. *)
Definition traced {A} (Q : result A -> list event -> Prop) (c : M A) : Prop :=
  forall s r s', c s = (r, s') -> exists evs, trace s' = trace s ++ evs /\ Q r evs.

(** No call has failed when a run returns; when it raises, none has failed
    but, at most, the last thing that happened. *)
Definition fails_last {A} (r : result A) (evs : list event) : Prop :=
  match r with
  | Ok _ => Forall (fun ev => failed ev = false) evs
  | Raise _ =>
      exists evs', (evs = evs' \/ exists ev, evs = evs' ++ [ev]) /\
                   Forall (fun ev => failed ev = false) evs'
  end.

Definition fail_fast {A} (c : M A) : Prop := traced fails_last c.



(** [v] is a dict of the store [h]. *)
Definition is_dict (h : list obj) (v : value) : bool :=
  match lookup_obj h v with
  | Some (ODict _) => true
  | _ => false
  end.

(** [v] is a reference to nothing in [h]; no Python value is. *)
Definition dangling (h : list obj) (v : value) : bool :=
  match v with
  | VRef l => bool_decide (length h <= l)
  | _ => false
  end.

End Model.

Arguments value : clear implicits.
Arguments obj : clear implicits.
Arguments estimator : clear implicits.
Arguments state : clear implicits.
Arguments library : clear implicits.
Arguments Ok {A} a.
Arguments Raise {A} e.

(** ** A small stand-in for the libraries, to run the module on *)

Module Toy.

Definition data := Z.
Definition fitted := nat.

Definition lookup_estimator (h : list (obj data fitted)) (v : value data)
  : option (estimator data fitted) :=
  match lookup_obj h v with
  | Some (OEstimator e) => Some e
  | _ => None
  end.

(** The first candidate of each parameter, or nothing when a candidate list
    is empty or is not a list. *)
Fixpoint first_candidates (h : list (obj data fitted)) (grid : list (string * value data))
  : option (list (string * value data)) :=
  match grid with
  | [] => Some []
  | (k, v) :: rest =>
      match lookup_obj h v, first_candidates h rest with
      | Some (OList (c :: _)), Some cs => Some ((k, c) :: cs)
      | _, _ => None
      end
  end.

Definition toy : library data fitted := {|
  est_fit := fun _ e _ _ =>
    (Estimator (est_class e) (est_params e) (Some (S (default 0 (est_fitted e)))), None);
  est_predict := fun _ e _ =>
    match est_fitted e with
    | Some n => inr (VData (Z.of_nat n))
    | None => inl (LibraryError "NotFittedError")
    end;
  est_predict_proba := fun _ e _ =>
    match est_fitted e with
    | Some n => inr (VData (Z.of_nat n + 100)%Z)
    | None => inl (LibraryError "NotFittedError")
    end;
  accuracy_score := fun _ _ _ => inr (VData 1%Z);
  classification_report := fun _ _ _ => inr (VStr "report");
  column := fun _ a _ => inr a;
  custom_roc_auc := fun _ _ s => inr (VData 0%Z, VData 1%Z, s);
  search_fit := fun h gs _ _ =>
    match lookup_estimator h (gs_estimator gs), lookup_obj h (gs_param_grid gs) with
    | Some e, Some (ODict grid) =>
        match first_candidates h grid with
        | Some cs => inr (Estimator (est_class e) cs (Some 1), cs)
        | None => inl (LibraryError "ValueError")
        end
    | _, _ => inl TypeError
    end;
  py_str := fun _ v => match v with VStr s => s | _ => "<object>" end
|}.

Definition init : state data fitted := State [] [].

(** A store to run the module on: three untrained models and the dict that
    holds them, grids for some of them, and a model that was fitted before. *)
Definition store : list (obj data fitted) :=
  [ (* 0 *) OEstimator (Estimator "RandomForestClassifier"
                                  [("random_state", VInt 1234)] None);
    (* 1 *) OEstimator (Estimator "KNeighborsClassifier" [] None);
    (* 2 *) OEstimator (Estimator "MLPClassifier" [("random_state", VInt 1234)] None);
    (* 3 *) ODict [("Random Forest", VRef 0); ("KNN", VRef 1); ("MLP", VRef 2)];
    (* 4 *) OList [VInt 10; VInt 50];
    (* 5 *) ODict [("n_estimators", VRef 4)];
    (* 6 *) ODict [("Random Forest", VRef 5)];
    (* 7 *) ODict [];
    (* 8 *) ODict [("Random Forest", VRef 5); ("KNN", VRef 10)];
    (* 9 *) OList [VInt 3; VInt 5];
    (* 10 *) ODict [("n_neighbors", VRef 9)];
    (* 11 *) ODict [("KNN", VRef 1)];
    (* 12 *) ODict [("Random Forest", VRef 0); ("KNN", VRef 1)];
    (* 13 *) OEstimator (Estimator "KNeighborsClassifier" [] (Some 1));
    (* 14 *) ODict [("KNN", VRef 13)];
    (* 15 *) OList [];
    (* 16 *) ODict [("n_estimators", VRef 15)];
    (* 17 *) ODict [("Random Forest", VRef 16)] ].

Definition start : state data fitted := State store [].


End Toy.

(** ** Facts about the store and about dicts *)

Section Facts.

Context {data fitted : Type} (lib : library data fitted).

Implicit Types (h : list (obj data fitted)) (t : list (event (data:=data))).
Implicit Types (model param_grids X y : value data).
Implicit Types (done grids : list (string * value data)).

Lemma bind_ok {A B} (c : M (data:=data) (fitted:=fitted) A) (k : A -> M B) s a s' :
  c s = (Ok a, s') -> bind c k s = k a s'.
Proof. unfold bind. intros ->. reflexivity. Qed.

Lemma bind_raise {A B} (c : M (data:=data) (fitted:=fitted) A) (k : A -> M B) s e s' :
  c s = (Raise e, s') -> bind c k s = (Raise e, s').
Proof. unfold bind. intros ->. reflexivity. Qed.

Lemma for_items_app body pre post (s : state data fitted) :
  for_items body (pre ++ post) s =
  match for_items body pre s with
  | (Ok None, s1) => for_items body post s1
  | other => other
  end.
Proof.
  revert s. induction pre as [|[name model] pre IH]; intros s; cbn.
  - reflexivity.
  - unfold bind. destruct (body name model s) as [[[v|]|e] s1]; cbn; auto.
Qed.

(** *** Dicts *)

Lemma dict_get_set_eq {V} (d : list (string * V)) k v :
  dict_get (dict_set d k v) k = Some v.
Proof.
  induction d as [|[k' v'] d IH]; cbn.
  - by rewrite String.eqb_refl.
  - destruct (String.eqb_spec k' k) as [->|Hne]; cbn.
    + by rewrite String.eqb_refl.
    + by apply String.eqb_neq in Hne as ->.
Qed.

Lemma dict_get_set_ne {V} (d : list (string * V)) k k' v :
  k <> k' -> dict_get (dict_set d k v) k' = dict_get d k'.
Proof.
  intros Hne. induction d as [|[k0 v0] d IH]; cbn.
  - by apply String.eqb_neq in Hne as ->.
  - destruct (String.eqb_spec k0 k) as [->|Hne0]; cbn.
    + by apply String.eqb_neq in Hne as ->.
    + by rewrite IH.
Qed.

Lemma dict_get_None {V} (d : list (string * V)) k :
  dict_get d k = None <-> k ∉ dict_keys d.
Proof.
  unfold dict_keys. induction d as [|[k' v'] d IH]; cbn.
  - split; [intros _; apply not_elem_of_nil | done].
  - rewrite not_elem_of_cons. destruct (String.eqb_spec k' k) as [->|Hne].
    + split; [done | intros [? _]; done].
    + rewrite IH. intuition congruence.
Qed.

Lemma dict_get_Some_keys {V} (d : list (string * V)) k v :
  dict_get d k = Some v -> k ∈ dict_keys d.
Proof.
  intros H. destruct (decide (k ∈ dict_keys d)) as [|Hn]; [done|].
  apply dict_get_None in Hn. congruence.
Qed.

Lemma dict_set_new {V} (d : list (string * V)) k v :
  k ∉ dict_keys d -> dict_set d k v = d ++ [(k, v)].
Proof.
  unfold dict_keys. induction d as [|[k' v'] d IH]; cbn; [done|].
  rewrite not_elem_of_cons. intros [Hne Hnin].
  destruct (String.eqb_spec k' k) as [->|_]; [done|]. by rewrite IH.
Qed.

Lemma dict_keys_set {V} (d : list (string * V)) k v :
  k ∈ dict_keys d -> dict_keys (dict_set d k v) = dict_keys d.
Proof.
  unfold dict_keys. induction d as [|[k' v'] d IH]; cbn.
  - intros H. by apply elem_of_nil in H.
  - destruct (String.eqb_spec k' k) as [->|Hne]; cbn; [done|].
    rewrite elem_of_cons. intros [->|Hin]; [done|]. by rewrite IH.
Qed.

Lemma dict_get_In {V} (d : list (string * V)) k v :
  NoDup (dict_keys d) -> (k, v) ∈ d -> dict_get d k = Some v.
Proof.
  unfold dict_keys. induction d as [|[k' v'] d IH]; cbn.
  - intros _ H. by apply elem_of_nil in H.
  - rewrite NoDup_cons, elem_of_cons. intros [Hnin Hnd] [[= -> ->]|Hin].
    + by rewrite String.eqb_refl.
    + destruct (String.eqb_spec k' k) as [->|_]; [|by apply IH].
      exfalso. apply Hnin. apply list_elem_of_fmap. by exists (k, v).
Qed.

Lemma fold_dict_set_NoDup {V} (kvs acc : list (string * V)) :
  NoDup (dict_keys (acc ++ kvs)) ->
  fold_left (fun d kv => dict_set d (fst kv) (snd kv)) kvs acc = acc ++ kvs.
Proof.
  revert acc. induction kvs as [|[k v] kvs IH]; intros acc Hnd; cbn.
  - by rewrite app_nil_r.
  - rewrite dict_set_new.
    + rewrite IH; rewrite <- app_assoc; done.
    + unfold dict_keys in *. rewrite fmap_app in Hnd. cbn in Hnd.
      apply NoDup_app in Hnd as (_ & Hd & _). intros Hin.
      apply (Hd k Hin). apply elem_of_cons. by left.
Qed.

Lemma dict_of_list_NoDup {V} (kvs : list (string * V)) :
  NoDup (dict_keys kvs) -> dict_of_list kvs = kvs.
Proof. intros Hnd. unfold dict_of_list. by rewrite fold_dict_set_NoDup. Qed.

(** *** The store *)

Lemma lookup_obj_lt h (v : value data) o : lookup_obj h v = Some o -> exists l, v = VRef l /\ l < length h.
Proof.
  destruct v; cbn; try done. intros H. eexists; split; [done|].
  by apply lookup_lt_Some in H.
Qed.

Lemma lookup_obj_frame h0 h (v : value data) o :
  take (length h0) h = h0 -> lookup_obj h0 v = Some o -> lookup_obj h v = Some o.
Proof.
  intros Ht H. destruct (lookup_obj_lt _ _ _ H) as (l & -> & Hl). cbn in *.
  rewrite <- (lookup_take_lt h (length h0) l) by done. by rewrite Ht.
Qed.

(** *** One iteration of the loop of [tune_models] *)

(** The name has a grid: the search is run on it and the winner is stored. *)
Lemma tune_model_grid h t lb done param_grids grids X y name model g :
  h !! lb = Some (ODict done) ->
  lookup_obj h param_grids = Some (ODict grids) ->
  dict_get grids name = Some g ->
  tune_model lib (VRef lb) param_grids X y name model (State h t) =
  let gs := GridSearchCV model g (VStr "roc_auc") (VInt 3) (VInt (-1)) in
  match search_fit lib h gs X y with
  | inl e =>
      (Raise e,
       State h (t ++ [EPrint ("Tuning " ++ name ++ "...");
                      ECall (CSearchFit gs X y) (inl e)]))
  | inr (best, params) =>
      let h' := <[lb := ODict (dict_set done name (VRef (length h)))]> h
                ++ [OEstimator best; ODict (dict_of_list params)] in
      (Ok None,
       State h' (t ++ [EPrint ("Tuning " ++ name ++ "...");
                       ECall (CSearchFit gs X y) (inr (VRef (length h)));
                       EPrint ("Best parameters for " ++ name ++ ": "
                               ++ py_str lib h' (VRef (S (length h))))]))
  end.
Proof.
  intros Hlb Hpg Hg. pose proof (lookup_lt_Some _ _ _ Hlb) as Hlt.
  unfold tune_model, bind, contains, getitem, print, emit, fit_search; cbn.
  rewrite Hpg, Hg; cbn. rewrite Hpg, Hg; cbn.
  destruct (search_fit lib h _ X y) as [e|[best params]]; cbn.
  - by rewrite <- app_assoc.
  - unfold bind, alloc, new_dict, emit, ret, setitem, str; cbn.
    rewrite !length_app; cbn. rewrite !lookup_app_l by (rewrite ?length_app; lia).
    rewrite Hlb. cbn.
    rewrite <- !app_assoc; cbn.
    rewrite insert_app_l by done.
    replace (length h + 1) with (S (length h)) by lia. done.
Qed.

(** The name has no grid: the model is passed through and the function
    returns. *)
Lemma tune_model_no_grid h t lb done param_grids grids X y name model :
  h !! lb = Some (ODict done) ->
  lookup_obj h param_grids = Some (ODict grids) ->
  dict_get grids name = None ->
  tune_model lib (VRef lb) param_grids X y name model (State h t) =
  (Ok (Some (VRef lb)),
   State (<[lb := ODict (dict_set done name model)]> h) t).
Proof.
  intros Hlb Hpg Hg.
  unfold tune_model, bind, contains, setitem, ret; cbn.
  rewrite Hpg, Hg; cbn. by rewrite Hlb.
Qed.

Lemma events_since_app (s s' : state data fitted) evs :
  trace s' = trace s ++ evs -> events_since s s' = evs.
Proof. unfold events_since. intros ->. by rewrite drop_app_length. Qed.

(** Whatever an iteration does, it writes to [best_models] under its own
    name only, leaves the other objects alone and returns nothing but
    [best_models]. *)
Lemma tune_model_frame h t lb done param_grids X y name model r s' :
  h !! lb = Some (ODict done) ->
  tune_model lib (VRef lb) param_grids X y name model (State h t) = (r, s') ->
  exists done' new evs,
    heap s' = <[lb := ODict done']> h ++ new /\
    trace s' = t ++ evs /\
    (forall k, k <> name -> dict_get done' k = dict_get done k) /\
    (forall v, r = Ok (Some v) -> v = VRef lb).
Proof.
  intros Hlb Hrun.
  assert (Hid : h = <[lb := ODict done]> h ++ []).
  { by rewrite app_nil_r, list_insert_id. }
  destruct (lookup_obj h param_grids) as [[xs|grids|e]|] eqn:Hpg.
  2: destruct (dict_get grids name) as [g|] eqn:Hg.
  2: { rewrite (tune_model_grid _ _ _ _ _ _ _ _ _ _ _ Hlb Hpg Hg) in Hrun.
       cbn in Hrun. destruct (search_fit _ _ _ _ _) as [e|[best params]];
         injection Hrun as <- <-; cbn.
       - exists done, [], [EPrint ("Tuning " ++ name ++ "...");
           ECall (CSearchFit (GridSearchCV model g (VStr "roc_auc") (VInt 3)
                                           (VInt (-1))) X y) (inl e)].
         repeat split; try done.
       - eexists _, _, _. repeat split; try done.
         intros k Hk. by apply dict_get_set_ne. }
  2: { rewrite (tune_model_no_grid _ _ _ _ _ _ _ _ _ _ Hlb Hpg Hg) in Hrun.
       injection Hrun as <- <-; cbn.
       exists (dict_set done name model), [], []. rewrite !app_nil_r.
       repeat split; try done.
       - intros k Hk. by apply dict_get_set_ne.
       - by intros v [= <-]. }
  all: unfold tune_model, bind, contains in Hrun; cbn in Hrun;
    rewrite Hpg in Hrun; injection Hrun as <- <-; cbn;
    exists done, [], []; rewrite !app_nil_r, list_insert_id by done;
    repeat split; done.
Qed.

Lemma tune_loop_frame lb param_grids X y kvs : forall h t done r s',
  h !! lb = Some (ODict done) ->
  for_items (tune_model lib (VRef lb) param_grids X y) kvs (State h t) = (r, s') ->
  exists done' new evs,
    heap s' = <[lb := ODict done']> h ++ new /\
    trace s' = t ++ evs /\
    (forall k, k ∉ dict_keys kvs -> dict_get done' k = dict_get done k) /\
    (forall v, r = Ok (Some v) -> v = VRef lb).
Proof.
  induction kvs as [|[name model] kvs IH]; intros h t done r s' Hlb Hrun.
  - cbn in Hrun. injection Hrun as <- <-. cbn.
    exists done, [], []. rewrite !app_nil_r, list_insert_id by done. done.
  - cbn in Hrun. unfold bind in Hrun.
    destruct (tune_model _ _ _ _ _ _ _ _) as [r1 s1] eqn:Hbody.
    destruct (tune_model_frame _ _ _ _ _ _ _ _ _ _ _ Hlb Hbody)
      as (done1 & new1 & evs1 & Hh1 & Ht1 & Hd1 & Hr1).
    pose proof (lookup_lt_Some _ _ _ Hlb) as Hlt.
    destruct r1 as [[v|]|e].
    + injection Hrun as <- <-. exists done1, new1, evs1.
      repeat split; try done. intros k Hk. apply Hd1.
      intros ->. apply Hk. cbn. apply elem_of_cons. by left.
    + destruct s1 as [h1 t1]. cbn in Hh1, Ht1.
      assert (Hlb1 : h1 !! lb = Some (ODict done1)).
      { rewrite Hh1, lookup_app_l by (by rewrite length_insert).
        by apply list_lookup_insert_eq. }
      destruct (IH _ _ _ _ _ Hlb1 Hrun)
        as (done' & new' & evs' & Hh' & Ht' & Hd' & Hr').
      exists done', (new1 ++ new'), (evs1 ++ evs').
      repeat split; try done.
      * rewrite Hh', Hh1, insert_app_l by (by rewrite length_insert).
        by rewrite list_insert_insert_eq, <- app_assoc.
      * by rewrite Ht', Ht1, <- app_assoc.
      * intros k Hk. cbn in Hk. apply not_elem_of_cons in Hk as [Hne Hk].
        rewrite Hd' by done. by apply Hd1.
    + injection Hrun as <- <-. exists done1, new1, evs1.
      repeat split; try done. intros k Hk. apply Hd1.
      intros ->. apply Hk. cbn. apply elem_of_cons. by left.
Qed.

Lemma lookup_insert_app_ne h lb (o : obj data fitted) new l :
  l <> lb -> (<[lb := o]> h ++ new) !! l = (h ++ new) !! l.
Proof.
  intros Hne. rewrite !lookup_app, length_insert.
  by rewrite list_lookup_insert_ne.
Qed.

Lemma lookup_obj_insert_app_ne h lb (o : obj data fitted) new (v : value data) :
  v <> VRef lb -> lookup_obj (<[lb := o]> h ++ new) v = lookup_obj (h ++ new) v.
Proof.
  destruct v; cbn; try done. intros Hne. apply lookup_insert_app_ne. congruence.
Qed.

Lemma lookup_obj_app_l h new (v : value data) o :
  lookup_obj h v = Some o -> lookup_obj (h ++ new) v = Some o.
Proof. destruct v; cbn; try done. apply lookup_app_l_Some. Qed.

(** A run of the loop over models that all have a grid: either every search
    succeeds, and each model has got a new estimator under its name, or a
    search raises and the exception ends the run. *)
Lemma tune_prefix lb param_grids grids X y pre : forall h t done r s1,
  h !! lb = Some (ODict done) ->
  lookup_obj h param_grids = Some (ODict grids) ->
  param_grids <> VRef lb ->
  Forall (fun kv => is_Some (dict_get grids kv.1)) pre ->
  NoDup (dict_keys done ++ dict_keys pre) ->
  for_items (tune_model lib (VRef lb) param_grids X y) pre (State h t) = (r, s1) ->
  exists done' new evs,
    heap s1 = <[lb := ODict done']> h ++ new /\
    trace s1 = t ++ evs /\
    ((r = Ok None /\
      Forall (fun ev => failed ev = false) evs /\
      dict_keys done' = dict_keys done ++ dict_keys pre /\
      (forall k v, dict_get done k = Some v -> dict_get done' k = Some v) /\
      length evs = 3 * length pre /\
      (forall k, k ∈ dict_keys pre ->
         exists b e, dict_get done' k = Some (VRef b) /\ length h <= b /\
                     heap s1 !! b = Some (OEstimator e)))
     \/ (exists e, r = Raise e /\ Exists (fun ev => failed ev = true) evs)).
Proof.
  induction pre as [|[name model] pre IH];
    intros h t done r s1 Hlb Hpg Hne Hgrids Hnd Hrun.
  - cbn in Hrun. injection Hrun as <- <-. cbn.
    exists done, [], []. rewrite !app_nil_r, list_insert_id by done.
    repeat split; try done. left. repeat split; try done.
    intros k Hk. by apply elem_of_nil in Hk.
  - apply Forall_cons in Hgrids as [[g Hg] Hgrids]. cbn in Hg.
    pose proof (lookup_lt_Some _ _ _ Hlb) as Hlt.
    assert (Hname : name ∉ dict_keys done).
    { apply NoDup_app in Hnd as (_ & Hd & _). intros Hin.
      apply (Hd _ Hin). cbn. apply elem_of_cons. by left. }
    cbn in Hrun. unfold bind in Hrun.
    rewrite (tune_model_grid _ _ _ _ _ _ _ _ _ _ _ Hlb Hpg Hg) in Hrun.
    cbn in Hrun. destruct (search_fit _ _ _ _ _) as [e|[best params]].
    + injection Hrun as <- <-. cbn. eexists done, [], _.
      rewrite app_nil_r, list_insert_id by done. repeat split; try done.
      right. exists e. split; [done|]. apply Exists_cons_tl, Exists_cons_hd. done.
    + set (done1 := dict_set done name (VRef (length h))) in *.
      set (h1 := <[lb := ODict done1]> h ++ _) in *.
      assert (Hlb1 : h1 !! lb = Some (ODict done1)).
      { unfold h1. rewrite lookup_app_l by (by rewrite length_insert).
        by apply list_lookup_insert_eq. }
      assert (Hpg1 : lookup_obj h1 param_grids = Some (ODict grids)).
      { unfold h1. rewrite lookup_obj_insert_app_ne by done.
        by apply lookup_obj_app_l. }
      assert (Hk1 : dict_keys done1 = dict_keys done ++ [name]).
      { unfold done1. rewrite dict_set_new by done.
        unfold dict_keys. by rewrite fmap_app. }
      assert (Hnd1 : NoDup (dict_keys done1 ++ dict_keys pre)).
      { rewrite Hk1, <- app_assoc. done. }
      destruct (IH _ _ _ _ _ Hlb1 Hpg1 Hne Hgrids Hnd1 Hrun)
        as (done' & new' & evs' & Hh' & Ht' & Hcases).
      exists done', ([OEstimator best; ODict (dict_of_list params)] ++ new'),
        ([EPrint ("Tuning " ++ name ++ "...");
          ECall (CSearchFit (GridSearchCV model g (VStr "roc_auc") (VInt 3)
                                          (VInt (-1))) X y)
                (inr (VRef (length h)));
          EPrint ("Best parameters for " ++ name ++ ": "
                  ++ py_str lib h1 (VRef (S (length h))))] ++ evs').
      split; [|split].
      * rewrite Hh'. unfold h1.
        rewrite insert_app_l by (by rewrite length_insert).
        by rewrite list_insert_insert_eq, <- app_assoc.
      * rewrite Ht'. by rewrite <- app_assoc.
      * destruct Hcases as [(-> & Hok & Hkeys & Hkeep & Hlen & Hbest)|(e & -> & Hex)].
        -- left. split; [done|]. split; [|split; [|split; [|split]]].
           ++ repeat apply Forall_cons_2; done.
           ++ rewrite Hkeys, Hk1, <- app_assoc. done.
           ++ intros k v Hkv. apply Hkeep. unfold done1.
              rewrite dict_get_set_ne; [done|].
              intros <-. by apply dict_get_Some_keys in Hkv.
           ++ cbn [length app]. rewrite Hlen. lia.
           ++ intros k Hk. cbn in Hk. apply elem_of_cons in Hk as [->|Hk].
              ** exists (length h), best. split; [|split; [lia|]].
                 { apply Hkeep. apply dict_get_set_eq. }
                 rewrite Hh'. rewrite lookup_insert_app_ne by lia.
                 apply lookup_app_l_Some. unfold h1.
                 rewrite lookup_app_r by (rewrite length_insert; lia).
                 rewrite length_insert. by rewrite Nat.sub_diag.
              ** destruct (Hbest k Hk) as (b & e & Hb & Hle & Hobj).
                 exists b, e. split; [done|]. split; [|done].
                 unfold h1 in Hle. rewrite length_app, length_insert in Hle. lia.
        -- right. exists e. split; [done|].
           by repeat apply Exists_cons_tl.
Qed.

(** [tune_models] on a dict of models: a new dict, then the loop. *)
Lemma tune_models_unfold h0 t0 (models : value data) kvs param_grids X y :
  lookup_obj h0 models = Some (ODict kvs) ->
  tune_models lib models param_grids X y (State h0 t0) =
  match for_items (tune_model lib (VRef (length h0)) param_grids X y) kvs
                  (State (h0 ++ [ODict []]) t0) with
  | (Ok (Some v), s') => (Ok v, s')
  | (Ok None, s') => (Ok VNone, s')
  | (Raise e, s') => (Raise e, s')
  end.
Proof.
  intros Hm. unfold tune_models, bind, new_dict, alloc, items, returned, ret. cbn.
  rewrite (lookup_obj_app_l _ _ _ _ Hm).
  destruct (for_items _ _ _) as [[[v|]|e] s']; done.
Qed.

(** ** The tuner *)

(** C1. When some model has no entry in [param_grids] (and the searches run
    for the models before it do not raise), [tune_models] returns at the first
    such model: the dict it returns has exactly the names up to and including
    that one, in order; the earlier ones map to the new estimators the
    searches produced, that one maps to the very model passed in, and no
    later name is in it, whether it has a grid or not. Three events per
    earlier model are all the run adds to the trace, and no object that
    existed before the call is changed. *)
Theorem tune_models_returns_at_first_gridless
    (s0 : state data fitted) (models : value data) param_grids X y
    kvs grids pre name model post r s' :
  lookup_obj (heap s0) models = Some (ODict kvs) ->
  NoDup (dict_keys kvs) ->
  lookup_obj (heap s0) param_grids = Some (ODict grids) ->
  kvs = pre ++ (name, model) :: post ->
  Forall (fun kv => is_Some (dict_get grids kv.1)) pre ->
  dict_get grids name = None ->
  tune_models lib models param_grids X y s0 = (r, s') ->
  Forall (fun ev => failed ev = false) (events_since s0 s') ->
  exists best_models,
    r = Ok (VRef (length (heap s0))) /\
    heap s' !! length (heap s0) = Some (ODict best_models) /\
    dict_keys best_models = dict_keys pre ++ [name] /\
    dict_get best_models name = Some model /\
    (forall k, k ∈ dict_keys pre ->
       exists b e, dict_get best_models k = Some (VRef b) /\
                   length (heap s0) < b /\ heap s' !! b = Some (OEstimator e)) /\
    (forall k, k ∈ dict_keys post -> dict_get best_models k = None) /\
    length (events_since s0 s') = 3 * length pre /\
    take (length (heap s0)) (heap s') = heap s0.
Proof.
  destruct s0 as [h0 t0]. cbn [heap trace].
  intros Hm Hnd Hpg -> Hgrids Hname Hrun Hok.
  rewrite (tune_models_unfold _ _ _ _ _ _ _ Hm), for_items_app in Hrun.
  destruct (for_items _ pre _) as [r1 s1] eqn:Hpre.
  assert (Hlb : (h0 ++ [ODict []]) !! length h0 = Some (ODict ([] : list (string * value data)))).
  { rewrite lookup_app_r by lia. by rewrite Nat.sub_diag. }
  assert (Hne : param_grids <> VRef (length h0)).
  { intros ->. cbn in Hpg. apply lookup_lt_Some in Hpg. lia. }
  unfold dict_keys in Hnd. rewrite fmap_app in Hnd. cbn in Hnd.
  pose proof Hnd as Hnd'. apply NoDup_app in Hnd' as (Hndpre & Hdisj & Hndpost).
  apply NoDup_cons in Hndpost as [Hnamepost _].
  destruct (tune_prefix _ _ _ _ _ _ _ _ _ _ _ Hlb (lookup_obj_app_l _ _ _ _ Hpg)
              Hne Hgrids Hndpre Hpre)
    as (done' & new & evs & Hh1 & Ht1 & [(-> & _ & Hkeys & _ & Hlen & Hbest)|(e & -> & Hex)]).
  - destruct s1 as [h1 t1]. cbn in Hh1, Ht1. cbn in Hrun. unfold bind in Hrun.
    assert (Hlb1 : h1 !! length h0 = Some (ODict done')).
    { rewrite Hh1, lookup_app_l by (rewrite length_insert, length_app; cbn; lia).
      apply list_lookup_insert_eq. rewrite length_app. cbn. lia. }
    assert (Hpg1 : lookup_obj h1 param_grids = Some (ODict grids)).
    { rewrite Hh1, lookup_obj_insert_app_ne by done.
      by apply lookup_obj_app_l, lookup_obj_app_l. }
    rewrite (tune_model_no_grid _ _ _ _ _ _ _ _ _ _ Hlb1 Hpg1 Hname) in Hrun.
    cbn in Hrun. injection Hrun as <- <-. cbn [heap trace] in *.
    assert (Hnamepre : name ∉ dict_keys done').
    { rewrite Hkeys. cbn. intros Hin. apply (Hdisj _ Hin).
      apply elem_of_cons. by left. }
    exists (dict_set done' name model). repeat split.
    + apply list_lookup_insert_eq. by apply lookup_lt_Some in Hlb1.
    + rewrite dict_set_new by done. unfold dict_keys in *.
      by rewrite fmap_app, Hkeys.
    + apply dict_get_set_eq.
    + intros k Hk. destruct (Hbest k Hk) as (b & e & Hb & Hle & Hobj).
      rewrite length_app in Hle. cbn in Hle.
      exists b, e. repeat split; [|lia|].
      * rewrite dict_get_set_ne; [done|]. intros <-. apply Hnamepre.
        rewrite Hkeys. done.
      * rewrite list_lookup_insert_ne by lia. done.
    + intros k Hk. apply dict_get_None. rewrite dict_set_new by done.
      unfold dict_keys in *. rewrite fmap_app, Hkeys. cbn.
      intros Hin. apply elem_of_app in Hin as [Hin|Hin].
      * apply (Hdisj _ Hin). apply elem_of_cons. by right.
      * apply list_elem_of_singleton in Hin as ->.
        by apply NoDup_app in Hnd as (_ & _ & [? _]%NoDup_cons).
    + rewrite (events_since_app (State h0 t0) (State _ t1) evs Ht1). done.
    + rewrite take_insert_ge by lia. rewrite Hh1.
      rewrite take_app_le by (rewrite length_insert, length_app; lia).
      rewrite take_insert_ge by lia. apply take_app_length.
  - injection Hrun as <- <-.
    rewrite (events_since_app (State h0 t0) s1 evs Ht1) in Hok.
    exfalso. apply Exists_exists in Hex as (ev & Hin & Hev).
    rewrite Forall_forall in Hok. specialize (Hok ev Hin). congruence.
Qed.

(** C7. [tune_models({"KNN": knn}, {}, ...)] returns a new dict {"KNN": knn}
    holding the very model it was given; nothing else changes and no call
    leaves the module. *)
Theorem tune_models_knn_passthrough
    (s0 : state data fitted) (models : value data) param_grids X y knn :
  lookup_obj (heap s0) models = Some (ODict [("KNN", knn)]) ->
  lookup_obj (heap s0) param_grids = Some (ODict []) ->
  tune_models lib models param_grids X y s0 =
  (Ok (VRef (length (heap s0))),
   State (heap s0 ++ [ODict [("KNN", knn)]]) (trace s0)).
Proof.
  destruct s0 as [h0 t0]. cbn [heap trace]. intros Hm Hpg.
  rewrite (tune_models_unfold _ _ _ _ _ _ _ Hm). cbn. unfold bind.
  erewrite (tune_model_no_grid _ _ _ [] _ []).
  - cbn. rewrite insert_app_r_alt by lia. by rewrite Nat.sub_diag.
  - rewrite lookup_app_r by lia. by rewrite Nat.sub_diag.
  - by apply lookup_obj_app_l.
  - done.
Qed.

(** C10. When every model has an entry in [param_grids] and no search raises,
    control leaves the loop without meeting a `return`: the call yields None,
    and the dict of tuned models it built stays behind in the store. *)
Theorem tune_models_all_grids_returns_none
    (s0 : state data fitted) (models : value data) param_grids X y kvs grids r s' :
  lookup_obj (heap s0) models = Some (ODict kvs) ->
  NoDup (dict_keys kvs) ->
  lookup_obj (heap s0) param_grids = Some (ODict grids) ->
  Forall (fun kv => is_Some (dict_get grids kv.1)) kvs ->
  tune_models lib models param_grids X y s0 = (r, s') ->
  Forall (fun ev => failed ev = false) (events_since s0 s') ->
  r = Ok VNone /\
  exists best_models,
    heap s' !! length (heap s0) = Some (ODict best_models) /\
    dict_keys best_models = dict_keys kvs.
Proof.
  destruct s0 as [h0 t0]. cbn [heap trace].
  intros Hm Hnd Hpg Hgrids Hrun Hok.
  rewrite (tune_models_unfold _ _ _ _ _ _ _ Hm) in Hrun.
  destruct (for_items _ kvs _) as [r1 s1] eqn:Hloop.
  assert (Hlb : (h0 ++ [ODict []]) !! length h0 = Some (ODict ([] : list (string * value data)))).
  { rewrite lookup_app_r by lia. by rewrite Nat.sub_diag. }
  assert (Hne : param_grids <> VRef (length h0)).
  { intros ->. cbn in Hpg. apply lookup_lt_Some in Hpg. lia. }
  destruct (tune_prefix _ _ _ _ _ _ _ _ _ _ _ Hlb (lookup_obj_app_l _ _ _ _ Hpg)
              Hne Hgrids Hnd Hloop)
    as (done' & new & evs & Hh1 & Ht1 & [(-> & _ & Hkeys & _)|(e & -> & Hex)]).
  - injection Hrun as <- <-. split; [done|]. exists done'. split; [|done].
    rewrite Hh1, lookup_app_l by (rewrite length_insert, length_app; cbn; lia).
    apply list_lookup_insert_eq. rewrite length_app. cbn. lia.
  - injection Hrun as <- <-.
    rewrite (events_since_app (State h0 t0) s1 evs Ht1) in Hok.
    exfalso. apply Exists_exists in Hex as (ev & Hin & Hev).
    rewrite Forall_forall in Hok. specialize (Hok ev Hin). congruence.
Qed.

(** C8. Take a model whose name has a grid, and a run of [tune_models] whose
    loop gets to it, in state [s1]. Then the run prints the "Tuning" line and
    fits a search built from exactly that model, that grid,
    scoring='roc_auc', cv=3 and n_jobs=-1 on (X_train, y_train). If the search
    raises, so does [tune_models]. Otherwise its best estimator, a new
    object, is what [best_models] holds under the model's name when the run
    ends, and [best_models] is the only dict the call can return. *)
Theorem tune_models_search_call
    (s0 : state data fitted) (models : value data) param_grids X_train y_train
    kvs grids pre name model post g s1 r s' :
  lookup_obj (heap s0) models = Some (ODict kvs) ->
  NoDup (dict_keys kvs) ->
  lookup_obj (heap s0) param_grids = Some (ODict grids) ->
  kvs = pre ++ (name, model) :: post ->
  dict_get grids name = Some g ->
  for_items (tune_model lib (VRef (length (heap s0))) param_grids X_train y_train)
            pre (State (heap s0 ++ [ODict []]) (trace s0)) = (Ok None, s1) ->
  tune_models lib models param_grids X_train y_train s0 = (r, s') ->
  let gs := GridSearchCV model g (VStr "roc_auc") (VInt 3) (VInt (-1)) in
  match search_fit lib (heap s1) gs X_train y_train with
  | inl e =>
      r = Raise e /\
      trace s' = trace s1 ++ [EPrint ("Tuning " ++ name ++ "...");
                              ECall (CSearchFit gs X_train y_train) (inl e)]
  | inr (best, _) =>
      exists evs best_models,
        trace s' = trace s1 ++
                   [EPrint ("Tuning " ++ name ++ "...");
                    ECall (CSearchFit gs X_train y_train)
                          (inr (VRef (length (heap s1))))] ++ evs /\
        heap s1 !! length (heap s1) = None /\
        heap s' !! length (heap s1) = Some (OEstimator best) /\
        heap s' !! length (heap s0) = Some (ODict best_models) /\
        dict_get best_models name = Some (VRef (length (heap s1))) /\
        (forall v, r = Ok v -> v = VNone \/ v = VRef (length (heap s0)))
  end.
Proof.
  destruct s0 as [h0 t0]. cbn [heap trace].
  intros Hm Hnd Hpg -> Hg Hpre Hrun.
  set (gs := GridSearchCV model g (VStr "roc_auc") (VInt 3) (VInt (-1))).
  rewrite (tune_models_unfold _ _ _ _ _ _ _ Hm), for_items_app, Hpre in Hrun.
  assert (Hlb : (h0 ++ [ODict []]) !! length h0 = Some (ODict ([] : list (string * value data)))).
  { rewrite lookup_app_r by lia. by rewrite Nat.sub_diag. }
  assert (Hne : param_grids <> VRef (length h0)).
  { intros ->. cbn in Hpg. apply lookup_lt_Some in Hpg. lia. }
  destruct (tune_loop_frame _ _ _ _ _ _ _ _ _ _ Hlb Hpre)
    as (done1 & new1 & evs1 & Hh1 & Ht1 & _ & _).
  destruct s1 as [h1 t1]. cbn [heap trace] in *.
  assert (Hlb1 : h1 !! length h0 = Some (ODict done1)).
  { rewrite Hh1, lookup_app_l by (rewrite length_insert, length_app; cbn; lia).
    apply list_lookup_insert_eq. rewrite length_app. cbn. lia. }
  assert (Hpg1 : lookup_obj h1 param_grids = Some (ODict grids)).
  { rewrite Hh1, lookup_obj_insert_app_ne by done.
    by apply lookup_obj_app_l, lookup_obj_app_l. }
  pose proof (lookup_lt_Some _ _ _ Hlb1) as Hlt1.
  cbn [for_items] in Hrun. unfold bind at 1 in Hrun.
  rewrite (tune_model_grid _ _ _ _ _ _ _ _ _ _ _ Hlb1 Hpg1 Hg) in Hrun.
  cbn zeta in Hrun. fold gs in Hrun.
  destruct (search_fit lib h1 gs X_train y_train) as [e|[best params]].
  - by injection Hrun as <- <-.
  - destruct (for_items _ post _) as [r2 s2] eqn:Hpost.
    match type of Hpost with
    | for_items _ _ (State ?h ?t) = _ => set (h2 := h) in *; set (t2 := t) in *
    end.
    assert (Hlb2 : h2 !! length h0 = Some (ODict (dict_set done1 name (VRef (length h1))))).
    { unfold h2. rewrite lookup_app_l by (by rewrite length_insert).
      by apply list_lookup_insert_eq. }
    destruct (tune_loop_frame _ _ _ _ _ _ _ _ _ _ Hlb2 Hpost)
      as (done2 & new2 & evs2 & Hh2 & Ht2 & Hkeep & Hret).
    assert (Hs' : s' = s2) by (by destruct r2 as [[?|]|?]; injection Hrun).
    subst s'. rewrite Hh2, Ht2.
    exists (EPrint ("Best parameters for " ++ name ++ ": "
                    ++ py_str lib h2 (VRef (S (length h1)))) :: evs2), done2.
    repeat split.
    + unfold t2. rewrite <- !app_assoc. done.
    + by apply lookup_ge_None_2.
    + rewrite lookup_insert_app_ne by lia. apply lookup_app_l_Some. unfold h2.
      rewrite lookup_app_r by (rewrite length_insert; lia).
      rewrite length_insert. by rewrite Nat.sub_diag.
    + rewrite lookup_app_l by (rewrite length_insert; by apply lookup_lt_Some in Hlb2).
      apply list_lookup_insert_eq. by apply lookup_lt_Some in Hlb2.
    + rewrite Hkeep; [apply dict_get_set_eq|].
      unfold dict_keys in Hnd. rewrite fmap_app in Hnd. cbn in Hnd.
      by apply NoDup_app in Hnd as (_ & _ & [? _]%NoDup_cons).
    + intros v Hv. destruct r2 as [[v2|]|e2]; injection Hrun as Hr; subst r;
        [injection Hv as <- | injection Hv as <- | discriminate].
      * right. by apply Hret.
      * by left.
Qed.

(** ** Computations that only allocate *)

Lemma builds_ret {A} (a : A) :
  builds (data:=data) (fitted:=fitted) (ret a) (fun _ _ => (a, [])).
Proof. intros h new t. unfold ret. cbn. by rewrite app_nil_r. Qed.

Lemma builds_alloc (o : obj data fitted) :
  builds (alloc o) (fun n k => (VRef (n + k), [o])).
Proof. intros h new t. unfold alloc. cbn. by rewrite length_app, <- app_assoc. Qed.

Lemma builds_bind {A B} (c : M (data:=data) (fitted:=fitted) A) (k : A -> M B) f g :
  builds c f -> (forall a, builds (k a) (g a)) ->
  builds (bind c k)
         (fun n i => let r1 := f n i in
                     let r2 := g (fst r1) n (i + length (snd r1)) in
                     (fst r2, snd r1 ++ snd r2)).
Proof.
  intros Hc Hk h new t. unfold bind. rewrite Hc. cbn.
  rewrite app_assoc, (app_assoc h new), <- (app_assoc h).
  rewrite Hk. rewrite length_app. by rewrite <- !app_assoc.
Qed.

Lemma builds_new_grid params :
  builds (data:=data) (fitted:=fitted) (new_grid params)
         (fun n i => (imap (fun j kv => (kv.1, VRef (n + (i + j)))) params,
                      OList ∘ snd <$> params)).
Proof.
  induction params as [|[k cs] params IH]; intros h new t.
  - cbn. unfold ret. by rewrite app_nil_r.
  - cbn [new_grid]. unfold bind at 1. unfold new_list.
    rewrite builds_alloc. cbn [fst snd].
    unfold bind at 1. rewrite app_assoc, (app_assoc h new), <- (app_assoc h).
    rewrite IH. unfold ret. cbn. rewrite length_app, <- !app_assoc. cbn.
    rewrite Nat.add_0_r. do 3 f_equal. apply imap_ext. intros j kv _. cbn.
    do 2 f_equal. lia.
Qed.

Lemma builds_relocates (c : M (data:=data) (fitted:=fitted) (value data)) f v0 new0 :
  builds c f ->
  (forall n, f n 0 = (shift_value n v0, shift_obj n <$> new0)) ->
  relocates c v0 new0.
Proof.
  intros Hb Hf [h t]. specialize (Hb h [] t). rewrite app_nil_r in Hb.
  rewrite Hb. cbn [length app heap trace]. by rewrite Hf.
Qed.

Ltac builds_steps :=
  repeat match goal with
         | |- builds (bind _ _) _ => eapply builds_bind; [|intros ?]
         | |- builds (new_grid _) _ => apply builds_new_grid
         | |- builds (alloc _) _ => apply builds_alloc
         | |- builds (ret _) _ => apply builds_ret
         end.

Lemma define_models_relocates :
  relocates (data:=data) (fitted:=fitted) define_models
    (VRef 3) (heap (snd (define_models (State [] [])))).
Proof.
  eapply builds_relocates.
  - unfold define_models, new_estimator, new_dict. builds_steps.
  - intros n. vm_compute. reflexivity.
Qed.

Lemma define_param_grid_relocates :
  relocates (data:=data) (fitted:=fitted) define_param_grid
    (VRef 20) (heap (snd (define_param_grid (State [] [])))).
Proof.
  eapply builds_relocates.
  - unfold define_param_grid, new_dict. builds_steps.
  - intros n. vm_compute. reflexivity.
Qed.

(** Reading a relocated structure gives what reading the original gives. *)

Lemma lookup_shifted h (new0 : list (obj data fitted)) l :
  (h ++ (shift_obj (length h) <$> new0)) !! (length h + l)
  = shift_obj (length h) <$> new0 !! l.
Proof.
  rewrite lookup_app_r by lia. rewrite list_lookup_fmap. do 2 f_equal. lia.
Qed.

Lemma mapM_fmap_ext {A B C} (g : B -> option C) (g' : A -> option C) (f : A -> B) l :
  (forall x, g (f x) = g' x) -> mapM g (f <$> l) = mapM g' l.
Proof. intros H. induction l as [|x l IH]; cbn; [done|]. by rewrite H, IH. Qed.

Lemma flat_map_fmap_ext {A B C} (g : B -> list C) (g' : A -> list C) (f : A -> B) l :
  (forall x, g (f x) = g' x) -> flat_map g (f <$> l) = flat_map g' l.
Proof. intros H. induction l as [|x l IH]; cbn; [done|]. by rewrite H, IH. Qed.

Lemma fmap_flat_map {A B C} (f : B -> C) (g : A -> list B) l :
  f <$> flat_map g l = flat_map (fun x => f <$> g x) l.
Proof. induction l as [|x l IH]; cbn; [done|]. by rewrite fmap_app, IH. Qed.

Lemma snapshot_shift fuel h (new0 : list (obj data fitted)) : forall v,
  snapshot fuel (h ++ (shift_obj (length h) <$> new0)) (shift_value (length h) v)
  = snapshot fuel new0 v.
Proof.
  induction fuel as [|fuel IH]; intros v; [done|].
  destruct v as [| | | | |vs| |l]; try done.
  - cbn. by rewrite (mapM_fmap_ext _ (snapshot fuel new0)) by done.
  - cbn. rewrite lookup_shifted.
    destruct (new0 !! l) as [[xs|kvs|e]|]; cbn; [| | |done].
    + by rewrite (mapM_fmap_ext _ (snapshot fuel new0)) by done.
    + unfold shift_items.
      by rewrite (mapM_fmap_ext _ (fun kv => pair kv.1 <$> snapshot fuel new0 kv.2))
        by (intros []; cbn; by rewrite IH).
    + unfold shift_items.
      by rewrite (mapM_fmap_ext _ (fun kv => pair kv.1 <$> snapshot fuel new0 kv.2))
        by (intros []; cbn; by rewrite IH).
Qed.

Lemma footprint_shift fuel h (new0 : list (obj data fitted)) : forall v,
  footprint fuel (h ++ (shift_obj (length h) <$> new0)) (shift_value (length h) v)
  = Nat.add (length h) <$> footprint fuel new0 v.
Proof.
  induction fuel as [|fuel IH]; intros v; [done|].
  destruct v as [| | | | |vs| |l]; try done.
  - cbn. rewrite fmap_flat_map. by apply flat_map_fmap_ext.
  - cbn. rewrite lookup_shifted. f_equal.
    destruct (new0 !! l) as [[xs|kvs|e]|]; cbn; [| | |done];
      rewrite fmap_flat_map; apply flat_map_fmap_ext; intros; apply IH.
Qed.

Lemma dict_get_shift_items n (kvs : list (string * value data)) k :
  dict_get (shift_items n kvs) k = shift_value n <$> dict_get kvs k.
Proof.
  induction kvs as [|[k' v] kvs IH]; cbn; [done|].
  by destruct (String.eqb k' k).
Qed.

Lemma lookup_obj_shift h (new0 : list (obj data fitted)) v :
  lookup_obj (h ++ (shift_obj (length h) <$> new0)) (shift_value (length h) v)
  = shift_obj (length h) <$> lookup_obj new0 v.
Proof. destruct v; try done. cbn. apply lookup_shifted. Qed.

Lemma candidate_counts_shift h (new0 : list (obj data fitted)) grid :
  candidate_counts (h ++ (shift_obj (length h) <$> new0)) (shift_items (length h) grid)
  = candidate_counts new0 grid.
Proof.
  induction grid as [|[k v] grid IH]; cbn; [done|].
  rewrite lookup_obj_shift. fold (shift_items (length h) grid). rewrite IH.
  destruct (lookup_obj new0 v) as [[xs|kvs|e]|]; cbn; try done.
  by rewrite length_fmap.
Qed.

Lemma grid_counts_shift h (new0 : list (obj data fitted)) v name :
  grid_counts (h ++ (shift_obj (length h) <$> new0)) (shift_value (length h) v) name
  = grid_counts new0 v name.
Proof.
  unfold grid_counts, grid_of. rewrite lookup_obj_shift.
  destruct (lookup_obj new0 v) as [[xs|gs|e]|]; cbn; try done.
  rewrite dict_get_shift_items. destruct (dict_get gs name) as [g|]; cbn; [|done].
  rewrite lookup_obj_shift.
  destruct (lookup_obj new0 g) as [[xs|grid|e]|]; cbn; try done.
  apply candidate_counts_shift.
Qed.

(** ** The registries *)

Lemma define_param_grid_counts (s : state data fitted) :
  exists registry s',
    define_param_grid s = (Ok registry, s') /\
    grid_counts (heap s') registry "Random Forest" = Some [4; 4; 3; 3; 3; 2] /\
    grid_counts (heap s') registry "KNN" = Some [5; 2; 4; 3; 2] /\
    grid_counts (heap s') registry "MLP" = Some [4; 3; 3; 4; 3; 3].
Proof.
  eexists _, _. split; [apply define_param_grid_relocates|].
  cbn [heap]. rewrite !grid_counts_shift. by vm_compute.
Qed.

(** C6. [define_models] takes nothing and, from any state, appends four new
    objects to the store and does nothing else: a random forest, a
    nearest-neighbour and a neural-network classifier, none of them fitted,
    the two stochastic ones constructed with random_state=1234 and the
    nearest-neighbour one with no argument at all, and the dict it returns,
    with exactly these three entries. *)
Theorem define_models_three_fresh_untrained (s : state data fitted) :
  exists rf knn mlp,
    let n := length (heap s) in
    define_models s =
      (Ok (VRef (n + 3)),
       State (heap s ++ [OEstimator rf; OEstimator knn; OEstimator mlp;
                         ODict [("Random Forest", VRef n); ("KNN", VRef (n + 1));
                                ("MLP", VRef (n + 2))]])
             (trace s)) /\
    est_class rf = "RandomForestClassifier" /\
    est_class knn = "KNeighborsClassifier" /\
    est_class mlp = "MLPClassifier" /\
    est_fitted rf = None /\ est_fitted knn = None /\ est_fitted mlp = None /\
    dict_get (est_params rf) "random_state" = Some (VInt 1234) /\
    dict_get (est_params mlp) "random_state" = Some (VInt 1234) /\
    est_params knn = [].
Proof.
  exists (Estimator "RandomForestClassifier" [("random_state", VInt 1234)] None),
         (Estimator "KNeighborsClassifier" [] None),
         (Estimator "MLPClassifier" [("random_state", VInt 1234)] None).
  cbv zeta. split; [|by repeat split].
  rewrite define_models_relocates.
  rewrite <- (Nat.add_0_r (length (heap s))) at 4. reflexivity.
Qed.

(** C3. In the dict that [define_param_grid] returns, the grid of
    "Random Forest" lists 4, 4, 3, 3, 3 and 2 candidates, which makes
    4*4*3*3*3*2 = 864 combinations, and the grid of "KNN" lists 5, 2, 4, 3 and
    2, which makes 5*2*4*3*2 = 240. *)
Theorem forest_and_knn_grid_sizes (s : state data fitted) :
  exists registry s',
    define_param_grid s = (Ok registry, s') /\
    grid_counts (heap s') registry "Random Forest" = Some [4; 4; 3; 3; 3; 2] /\
    grid_combinations (heap s') registry "Random Forest" = Some (4 * 4 * 3 * 3 * 3 * 2) /\
    grid_combinations (heap s') registry "Random Forest" = Some 864 /\
    grid_counts (heap s') registry "KNN" = Some [5; 2; 4; 3; 2] /\
    grid_combinations (heap s') registry "KNN" = Some (5 * 2 * 4 * 3 * 2) /\
    grid_combinations (heap s') registry "KNN" = Some 240.
Proof.
  destruct (define_param_grid_counts s) as (registry & s' & Heq & Hrf & Hknn & _).
  exists registry, s'. split; [exact Heq|].
  unfold grid_combinations. rewrite Hrf, Hknn. by repeat split.
Qed.

(** C2, as the code has it. In the dict that [define_param_grid] returns,
    the grid of "MLP" lists 4, 3, 3, 4, 3 and 3 candidates for its six
    parameters, which makes 4*3*3*4*3*3 = 1296 combinations. *)
Theorem mlp_grid_size (s : state data fitted) :
  exists registry s',
    define_param_grid s = (Ok registry, s') /\
    grid_counts (heap s') registry "MLP" = Some [4; 3; 3; 4; 3; 3] /\
    grid_combinations (heap s') registry "MLP" = Some (4 * 3 * 3 * 4 * 3 * 3) /\
    grid_combinations (heap s') registry "MLP" = Some 1296.
Proof.
  destruct (define_param_grid_counts s) as (registry & s' & Heq & _ & _ & Hmlp).
  exists registry, s'. split; [exact Heq|].
  unfold grid_combinations. rewrite Hmlp. by repeat split.
Qed.

Lemma relocates_same_structure (c : M (data:=data) (fitted:=fitted) (value data))
    v0 new0 tr s1 s2 :
  relocates c v0 new0 -> snapshot 8 new0 v0 = Some tr -> same_structure c s1 s2.
Proof.
  intros Hc Ht. eexists _, _, _, _, tr. repeat split; try apply Hc.
  all: cbn [heap]; by rewrite snapshot_shift.
Qed.

Lemma relocates_only_allocates (c : M (data:=data) (fitted:=fitted) (value data))
    v0 new0 tr s :
  relocates c v0 new0 -> snapshot 8 new0 v0 = Some tr -> only_allocates c s.
Proof.
  intros Hc Ht. eexists _, _. split; [apply Hc|]. cbn [heap trace].
  repeat split.
  - apply take_app_length.
  - rewrite snapshot_shift, Ht. by eexists.
  - rewrite footprint_shift. apply Forall_fmap, Forall_forall. intros l _. cbn. lia.
Qed.

(** C9. Both registries are deterministic and only allocate: from any two
    states they return values of one and the same structure (same keys, same
    configurations, same candidates, in the same order), and a call prints
    and calls nothing, changes no existing object, and builds its result out
    of new objects only. *)
Theorem registries_deterministic_and_fresh (s1 s2 : state data fitted) :
  same_structure define_models s1 s2 /\
  same_structure define_param_grid s1 s2 /\
  only_allocates define_models s1 /\
  only_allocates define_param_grid s1.
Proof.
  assert (Hm : exists tr, snapshot (data:=data) (fitted:=fitted) 8
                 (heap (snd (define_models (State [] [])))) (VRef 3) = Some tr).
  { eexists. by vm_compute. }
  assert (Hg : exists tr, snapshot (data:=data) (fitted:=fitted) 8
                 (heap (snd (define_param_grid (State [] [])))) (VRef 20) = Some tr).
  { eexists. by vm_compute. }
  destruct Hm as [tm Hm], Hg as [tg Hg]. repeat split.
  - exact (relocates_same_structure _ _ _ _ _ _ define_models_relocates Hm).
  - exact (relocates_same_structure _ _ _ _ _ _ define_param_grid_relocates Hg).
  - exact (relocates_only_allocates _ _ _ _ _ define_models_relocates Hm).
  - exact (relocates_only_allocates _ _ _ _ _ define_param_grid_relocates Hg).
Qed.

(** ** The trainer and evaluator *)

Lemma setitem_dict h t l kvs k (v : value data) :
  h !! l = Some (ODict kvs) ->
  setitem (fitted:=fitted) (VRef l) k v (State h t) =
  (Ok tt, State (<[l := ODict (dict_set kvs k v)]> h) t).
Proof. intros H. unfold setitem. cbn. by rewrite H. Qed.

Lemma getitem_dict h t l kvs k (v : value data) :
  h !! l = Some (ODict kvs) -> dict_get kvs k = Some v ->
  getitem (fitted:=fitted) (VRef l) k (State h t) = (Ok v, State h t).
Proof. intros H Hk. unfold getitem. cbn. by rewrite H, Hk. Qed.

Lemma log_call_run (c : call) (o : exn + value data) h t :
  log_call (fitted:=fitted) c o (State h t) =
  (match o with inl e => Raise e | inr v => Ok v end,
   State h (t ++ [ECall c o])).
Proof. unfold log_call, bind, emit, raise, ret. cbn. by destruct o. Qed.

(** The optional [fit] that opens an iteration. *)
Lemma maybe_fit_run (from_loaded : bool) model X y h t r s1 :
  (if negb from_loaded then bind (fit lib model X y) (fun _ => ret tt) else ret tt)
    (State h t) = (r, s1) ->
  exists evs,
    trace s1 = t ++ evs /\
    length (heap s1) = length h /\
    (from_loaded = true -> evs = [] /\ heap s1 = h) /\
    (forall l o, h !! l = Some o -> is_estimator o = false -> heap s1 !! l = Some o) /\
    match r with
    | Ok _ => evs = if from_loaded then []
                    else [ECall (CFit model X y) (inr model)]
    | Raise e => Exists (fun ev => failed ev = true) evs
    end.
Proof.
  destruct from_loaded; cbn.
  - intros [= <- <-]. exists []. rewrite app_nil_r. by repeat split.
  - unfold bind, fit, log_call, bind, emit, raise, ret. cbn.
    destruct model as [| | | | | | |l]; cbn;
      try (intros [= <- <-]; cbn; eexists; repeat split; [done..|];
           by apply Exists_cons_hd).
    destruct (h !! l) as [[xs|kvs|e]|] eqn:Hl; cbn;
      try (intros [= <- <-]; cbn; eexists; repeat split; [done..|];
           by apply Exists_cons_hd).
    destruct (est_fit lib h e X y) as [e' [ex|]]; cbn;
      intros [= <- <-]; cbn; eexists; (split; [done|]);
      (split; [by rewrite length_insert|]); (split; [done|]); split.
    + intros l' o Hl' Ho. rewrite list_lookup_insert_ne; [done|].
      intros <-. rewrite Hl in Hl'. by injection Hl' as <-.
    + by apply Exists_cons_hd.
    + intros l' o Hl' Ho. rewrite list_lookup_insert_ne; [done|].
      intros <-. rewrite Hl in Hl'. by injection Hl' as <-.
    + done.
Qed.

Lemma frames_refl lr lt fl h : frames (data:=data) (fitted:=fitted) lr lt fl h h.
Proof. split; [done|]. by intros. Qed.

Lemma frames_insert lr lt fl h h' l (o : obj data fitted) :
  frames lr lt fl h h' -> l = lr \/ l = lt \/ length h <= l ->
  frames lr lt fl h (<[l := o]> h').
Proof.
  intros [Hlen Hfr] Hl. split; [by rewrite length_insert|].
  intros l' o' Hl' Hlr Hlt Ho. rewrite list_lookup_insert_ne; [by apply Hfr|].
  apply lookup_lt_Some in Hl'. intros <-. destruct Hl as [->| [->|?]]; [done..|lia].
Qed.

Lemma frames_app lr lt fl h h' (new : list (obj data fitted)) :
  frames lr lt fl h h' -> frames lr lt fl h (h' ++ new).
Proof.
  intros [Hlen Hfr]. split; [rewrite length_app; lia|].
  intros l o Hl Hlr Hlt Ho. apply lookup_app_l_Some. by apply Hfr.
Qed.

Lemma predict_run model X h t :
  exists o, predict lib model X (State h t) = log_call (CPredict model X) o (State h t).
Proof.
  unfold predict. cbn [heap].
  destruct (lookup_obj h model) as [[| |]|]; eexists; reflexivity.
Qed.

Lemma predict_proba_run model X h t :
  exists o, predict_proba lib model X (State h t)
            = log_call (CPredictProba model X) o (State h t).
Proof.
  unfold predict_proba. cbn [heap].
  destruct (lookup_obj h model) as [[| |]|]; eexists; reflexivity.
Qed.

Ltac frames_tac Hframe Hlen :=
  repeat first
    [ exact Hframe
    | apply frames_app
    | apply frames_insert;
      [|first [ by left | by (right; left)
              | right; right; rewrite ?length_app, ?length_insert, ?Hlen; lia ]] ].

Ltac raised Hrun Hframe Hlen Hnofit :=
  cbv beta iota in Hrun; injection Hrun as <- <-; cbn [heap trace]; subst;
  rewrite <- ?app_assoc; cbn [app];
  eexists; split; [reflexivity|]; split; [frames_tac Hframe Hlen|]; split;
  [ intros Hfl'; apply Forall_app; split; [by apply Hnofit|by repeat constructor]
  | apply Exists_app; right;
    repeat first [ by apply Exists_cons_hd | apply Exists_cons_tl ] ].

Ltac call_step Hrun :=
  unfold bind at 1 in Hrun;
  rewrite log_call_run in Hrun; cbn [heap trace] in Hrun;
  match type of Hrun with
  | context [match ?o with inl _ => Raise _ | inr _ => _ end] =>
      destruct o as [?ex|?v] eqn:?
  end;
  cbv beta iota in Hrun.

(** One iteration of the loop of [train_and_evaluate]. *)
Lemma evaluate_model_run lr lt X_train X_test y_train y_test from_loaded
    name model h t R T r s' :
  h !! lr = Some (ODict R) -> h !! lt = Some (ODict T) -> lr <> lt ->
  evaluate_model lib (VRef lr) (VRef lt) X_train X_test y_train y_test
                 from_loaded name model (State h t) = (r, s') ->
  exists evs,
    trace s' = t ++ evs /\
    frames lr lt from_loaded h (heap s') /\
    (from_loaded = true -> Forall (fun ev => is_fit ev = false) evs) /\
    match r with
    | Raise _ => Exists (fun ev => failed ev = true) evs
    | Ok v =>
        v = None /\
        exists e,
          evs = evaluation_events X_train X_test y_train y_test from_loaded
                                  (name, model) e /\
          heap s' !! lr = Some (ODict (dict_set R name (VRef (length h)))) /\
          heap s' !! lt = Some (ODict (dict_set T name model)) /\
          heap s' !! length h = Some (ODict (evaluation_record e))
    end.
Proof.
  intros Hlr Hlt Hne Hrun. unfold evaluate_model in Hrun.
  unfold bind at 1 in Hrun.
  destruct ((if negb from_loaded
             then bind (fit lib model X_train y_train) (fun _ => ret tt)
             else ret tt) (State h t)) as [r0 [h1 t1]] eqn:Hfit.
  apply maybe_fit_run in Hfit as (evs0 & Ht1 & Hlen1 & Hfl & Hfr1 & Hr0).
  cbn [heap trace] in *.
  assert (Hframe1 : frames lr lt from_loaded h h1).
  { split; [lia|]. intros l o Hl _ _ [Hl'|Ho]; [|by apply Hfr1].
    destruct (Hfl Hl') as [_ ->]. done. }
  assert (Hnofit : from_loaded = true -> Forall (fun ev => is_fit ev = false) evs0).
  { intros Hl'. destruct (Hfl Hl') as [-> _]. constructor. }
  destruct r0 as [[]|e0].
  2: { injection Hrun as <- <-. exists evs0. done. }
  pose proof (Hfr1 _ _ Hlr eq_refl) as Hlr1.
  pose proof (Hfr1 _ _ Hlt eq_refl) as Hlt1.
  pose proof (lookup_lt_Some _ _ _ Hlr) as Hlrlt.
  pose proof (lookup_lt_Some _ _ _ Hlt) as Hltlt.
  clear Hfl Hfr1 Hlr Hlt.
  (* trained_models[name] = model *)
  unfold bind at 1 in Hrun. rewrite (setitem_dict _ _ _ _ _ _ Hlt1) in Hrun.
  set (T' := dict_set T name model) in *.
  (* y_pred = model.predict(X_test) *)
  destruct (predict_run model X_test (<[lt := ODict T']> h1) t1) as [o Hp].
  unfold bind at 1 in Hrun. rewrite Hp, log_call_run in Hrun. clear Hp.
  destruct o as [ex|y_pred]; cbv beta iota in Hrun;
    [raised Hrun Hframe1 Hlen1 Hnofit|].
  (* acc = accuracy_score(y_test, y_pred) *)
  unfold call_accuracy_score at 1 in Hrun. cbn [heap] in Hrun.
  call_step Hrun; [raised Hrun Hframe1 Hlen1 Hnofit|]. rename v into acc.
  (* results[name] = {"accuracy": acc} *)
  unfold bind at 1 in Hrun. unfold new_dict, alloc in Hrun.
  cbn [heap trace dict_of_list fold_left dict_set fst snd] in Hrun.
  cbv beta iota in Hrun. rewrite length_insert, Hlen1 in Hrun.
  set (h2 := <[lt := ODict T']> h1 ++ [ODict [("accuracy", acc)]]) in *.
  assert (Hlr2 : h2 !! lr = Some (ODict R)).
  { unfold h2. rewrite lookup_app_l by (rewrite length_insert; lia).
    by rewrite list_lookup_insert_ne. }
  unfold bind at 1 in Hrun. rewrite (setitem_dict _ _ _ _ _ _ Hlr2) in Hrun.
  set (R' := dict_set R name (VRef (length h))) in *.
  set (h3 := <[lr := ODict R']> h2) in *.
  (* the two prints and the report *)
  unfold bind at 1 in Hrun. unfold print at 1, emit in Hrun.
  cbn [heap trace] in Hrun. cbv beta iota in Hrun.
  unfold call_classification_report at 1 in Hrun. cbn [heap] in Hrun.
  call_step Hrun; [raised Hrun Hframe1 Hlen1 Hnofit|]. rename v into report.
  unfold bind at 1 in Hrun. unfold str at 1 in Hrun.
  cbn [heap trace] in Hrun. cbv beta iota in Hrun.
  unfold bind at 1 in Hrun. unfold print at 1, emit in Hrun.
  cbn [heap trace] in Hrun. cbv beta iota in Hrun.
  (* y_scores = model.predict_proba(X_test)[:, 1] *)
  match type of Hrun with
  | bind _ _ (State _ ?t') = _ =>
      destruct (predict_proba_run model X_test h3 t') as [o Hp]
  end.
  unfold bind at 1 in Hrun. rewrite Hp, log_call_run in Hrun. clear Hp.
  destruct o as [ex|proba]; cbv beta iota in Hrun;
    [raised Hrun Hframe1 Hlen1 Hnofit|].
  unfold call_column at 1 in Hrun. cbn [heap] in Hrun.
  call_step Hrun; [raised Hrun Hframe1 Hlen1 Hnofit|]. rename v into y_scores.
  (* fpr, tpr, auc = custom_roc_auc(y_test, y_scores) *)
  unfold bind at 1 in Hrun. unfold call_custom_roc_auc at 1 in Hrun.
  cbn [heap trace] in Hrun.
  destruct (custom_roc_auc lib h3 y_test y_scores) as [ex|[[fpr tpr] auc]] eqn:Hroc;
    cbv beta iota in Hrun; [raised Hrun Hframe1 Hlen1 Hnofit|].
  (* results[name]["fpr"] = fpr, and so on *)
  assert (Hlen2 : length h2 = S (length h)).
  { unfold h2. rewrite length_app, length_insert. cbn. lia. }
  assert (Hname : dict_get R' name = Some (VRef (length h)))
    by apply dict_get_set_eq.
  assert (Hlr3 : h3 !! lr = Some (ODict R')).
  { unfold h3. apply list_lookup_insert_eq. lia. }
  assert (Hrec3 : h3 !! length h = Some (ODict [("accuracy", acc)])).
  { unfold h3, h2. rewrite list_lookup_insert_ne by lia.
    rewrite lookup_app_r by (rewrite length_insert; lia).
    rewrite length_insert, Hlen1. by rewrite Nat.sub_diag. }
  unfold bind at 1 in Hrun. rewrite (getitem_dict _ _ _ _ _ _ Hlr3 Hname) in Hrun.
  unfold bind at 1 in Hrun. rewrite (setitem_dict _ _ _ _ _ _ Hrec3) in Hrun.
  cbn [dict_set String.eqb Ascii.eqb Bool.eqb] in Hrun.
  assert (Hlen3 : length h3 = S (length h)).
  { unfold h3. by rewrite length_insert. }
  set (h4 := <[length h := ODict [("accuracy", acc); ("fpr", fpr)]]> h3) in *.
  assert (Hlr4 : h4 !! lr = Some (ODict R')).
  { unfold h4. by rewrite list_lookup_insert_ne by lia. }
  assert (Hrec4 : h4 !! length h = Some (ODict [("accuracy", acc); ("fpr", fpr)])).
  { unfold h4. apply list_lookup_insert_eq. lia. }
  unfold bind at 1 in Hrun. rewrite (getitem_dict _ _ _ _ _ _ Hlr4 Hname) in Hrun.
  unfold bind at 1 in Hrun. rewrite (setitem_dict _ _ _ _ _ _ Hrec4) in Hrun.
  cbn [dict_set String.eqb Ascii.eqb Bool.eqb] in Hrun.
  set (h5 := <[length h := ODict [("accuracy", acc); ("fpr", fpr); ("tpr", tpr)]]> h4)
    in *.
  assert (Hlr5 : h5 !! lr = Some (ODict R')).
  { unfold h5. by rewrite list_lookup_insert_ne by lia. }
  assert (Hrec5 : h5 !! length h
                  = Some (ODict [("accuracy", acc); ("fpr", fpr); ("tpr", tpr)])).
  { unfold h5. apply list_lookup_insert_eq. unfold h4. rewrite length_insert. lia. }
  unfold bind at 1 in Hrun. rewrite (getitem_dict _ _ _ _ _ _ Hlr5 Hname) in Hrun.
  unfold bind at 1 in Hrun. rewrite (setitem_dict _ _ _ _ _ _ Hrec5) in Hrun.
  cbn [dict_set String.eqb Ascii.eqb Bool.eqb] in Hrun.
  unfold ret in Hrun. injection Hrun as <- <-. cbn [heap trace].
  exists (evs0 ++ evaluation_events X_train X_test y_train y_test true (name, model)
            (Evaluation y_pred acc report (py_str lib h3 report) proba y_scores
                        fpr tpr auc)).
  split; [subst t1; cbn; by rewrite <- !app_assoc|].
  split; [unfold h5, h4, h3, h2; frames_tac Hframe1 Hlen1|].
  split.
  { intros Hfl'. apply Forall_app. split; [by apply Hnofit|]. by repeat constructor. }
  split; [done|].
  eexists. split; [by rewrite Hr0|].
  assert (Hlen4 : length h4 = S (length h)) by (unfold h4; by rewrite length_insert).
  assert (Hlen5 : length h5 = S (length h)) by (unfold h5; by rewrite length_insert).
  repeat split.
  - by rewrite list_lookup_insert_ne by lia.
  - rewrite list_lookup_insert_ne by lia. unfold h5, h4, h3, h2.
    rewrite !list_lookup_insert_ne by lia.
    rewrite lookup_app_l by (rewrite length_insert; lia).
    apply list_lookup_insert_eq. lia.
  - apply list_lookup_insert_eq. lia.
Qed.


Lemma frames_trans lr lt fl (h h1 h2 : list (obj data fitted)) :
  frames lr lt fl h h1 -> frames lr lt fl h1 h2 -> frames lr lt fl h h2.
Proof.
  intros [Hlen1 Hfr1] [Hlen2 Hfr2]. split; [lia|].
  intros l o Hl Hlr Hlt Ho. apply Hfr2; try done. by apply Hfr1.
Qed.

(** The loop of [train_and_evaluate], from a state in which [results] and
    [trained_models] hold the entries of the models done so far. *)
Lemma evaluate_loop lr lt X_train X_test y_train y_test from_loaded kvs :
  forall h t R T r s',
  h !! lr = Some (ODict R) -> h !! lt = Some (ODict T) -> lr <> lt ->
  dict_keys R = dict_keys T ->
  NoDup (dict_keys T ++ dict_keys kvs) ->
  for_items (evaluate_model lib (VRef lr) (VRef lt) X_train X_test y_train y_test
                            from_loaded) kvs (State h t) = (r, s') ->
  exists evs,
    trace s' = t ++ evs /\
    frames lr lt from_loaded h (heap s') /\
    (from_loaded = true -> Forall (fun ev => is_fit ev = false) evs) /\
    match r with
    | Raise _ => Exists (fun ev => failed ev = true) evs
    | Ok v =>
        v = None /\
        exists R' es,
          heap s' !! lr = Some (ODict R') /\
          heap s' !! lt = Some (ODict (T ++ kvs)) /\
          dict_keys R' = dict_keys R ++ dict_keys kvs /\
          (forall k v, dict_get R k = Some v -> dict_get R' k = Some v) /\
          evs = concat (zip_with (evaluation_events X_train X_test y_train y_test
                                                    from_loaded) kvs es) /\
          Forall2 (evaluated (heap s') R') kvs es
    end.
Proof.
  induction kvs as [|[name model] kvs IH];
    intros h t R T r s' Hlr Hlt Hne Hkeys Hnd Hrun.
  - cbn in Hrun. injection Hrun as <- <-. exists []. cbn [heap trace].
    rewrite !app_nil_r. repeat split; try done.
    exists R, []. repeat split; done.
  - cbn [for_items] in Hrun. unfold bind at 1 in Hrun.
    destruct (evaluate_model _ _ _ _ _ _ _ _ _ _ _) as [r1 [h1 t1]] eqn:Hbody.
    destruct (evaluate_model_run _ _ _ _ _ _ _ _ _ _ _ _ _ _ _ Hlr Hlt Hne Hbody)
      as (evs1 & Ht1 & Hfr1 & Hnofit1 & Hr1).
    cbn [heap trace] in *.
    destruct r1 as [v1|e1].
    2: { injection Hrun as <- <-. by exists evs1. }
    destruct Hr1 as (-> & e & Hevs1 & Hlr1 & Hlt1 & Hrec1).
    assert (HnameT : name ∉ dict_keys T).
    { apply NoDup_app in Hnd as (_ & Hd & _). intros Hin.
      apply (Hd _ Hin). cbn. apply elem_of_cons. by left. }
    assert (HnameR : name ∉ dict_keys R) by (by rewrite Hkeys).
    rewrite (dict_set_new T) in Hlt1 by done.
    rewrite (dict_set_new R) in Hlr1 by done.
    assert (Hkeys1 : dict_keys (R ++ [(name, VRef (length h))])
                     = dict_keys (T ++ [(name, model)])).
    { unfold dict_keys in *. by rewrite !fmap_app, Hkeys. }
    assert (Hnd1 : NoDup (dict_keys (T ++ [(name, model)]) ++ dict_keys kvs)).
    { unfold dict_keys in *. rewrite fmap_app, <- app_assoc. done. }
    destruct (IH _ _ _ _ _ _ Hlr1 Hlt1 Hne Hkeys1 Hnd1 Hrun)
      as (evs2 & Ht2 & Hfr2 & Hnofit2 & Hr2).
    exists (evs1 ++ evs2). split; [by rewrite Ht2, Ht1, <- app_assoc|].
    split; [by eapply frames_trans|].
    split; [intros Hfl; apply Forall_app; split; auto|].
    destruct r as [v|e2]; [|by apply Exists_app; right].
    destruct Hr2 as (-> & R' & es & Hlr2 & Hlt2 & Hkeys2 & Hkeep2 & Hevs2 & Hall2).
    split; [done|]. exists R', (e :: es).
    pose proof (lookup_lt_Some _ _ _ Hlr) as Hlrlt.
    pose proof (lookup_lt_Some _ _ _ Hlt) as Hltlt.
    repeat split.
    + done.
    + by rewrite Hlt2, <- app_assoc.
    + rewrite Hkeys2. unfold dict_keys. by rewrite fmap_app, <- app_assoc.
    + intros k v Hk. apply Hkeep2. rewrite <- (dict_set_new R) by done.
      rewrite dict_get_set_ne; [done|]. intros <-.
      by apply dict_get_Some_keys in Hk.
    + cbn. by rewrite Hevs1, Hevs2.
    + constructor; [|done]. exists (length h). split.
      * apply Hkeep2. rewrite <- (dict_set_new R) by done. apply dict_get_set_eq.
      * destruct Hfr2 as [_ Hfr2]. apply Hfr2; try done; try lia. by right.
Qed.

(** [train_and_evaluate] on a dict of models: two new dicts, then the loop. *)
Lemma train_and_evaluate_unfold h0 t0 (models : value data) kvs
    X_train X_test y_train y_test from_loaded :
  lookup_obj h0 models = Some (ODict kvs) ->
  train_and_evaluate lib models X_train X_test y_train y_test from_loaded
                     (State h0 t0) =
  match for_items (evaluate_model lib (VRef (length h0)) (VRef (S (length h0)))
                                  X_train X_test y_train y_test from_loaded)
                  kvs (State (h0 ++ [ODict []; ODict []]) t0) with
  | (Ok (Some v), s') => (Ok v, s')
  | (Ok None, s') => (Ok (VTuple [VRef (length h0); VRef (S (length h0))]), s')
  | (Raise e, s') => (Raise e, s')
  end.
Proof.
  intros Hm. unfold train_and_evaluate, bind, new_dict, alloc, items, ret. cbn.
  rewrite <- app_assoc. cbn. rewrite (lookup_obj_app_l _ _ _ _ Hm).
  rewrite length_app. cbn. rewrite Nat.add_1_r.
  destruct (for_items _ _ _) as [[[v|]|e] s']; done.
Qed.

Lemma frames_take lr lt (h0 new h' : list (obj data fitted)) :
  length h0 <= lr -> length h0 <= lt ->
  frames lr lt true (h0 ++ new) h' -> take (length h0) h' = h0.
Proof.
  intros Hlr Hlt [Hlen Hfr]. apply list_eq. intros i.
  destruct (decide (i < length h0)) as [Hi|Hi].
  - rewrite lookup_take_lt by done.
    destruct (lookup_lt_is_Some_2 h0 i Hi) as [o Ho]. rewrite Ho.
    apply Hfr; [by apply lookup_app_l_Some|lia|lia|by left].
  - rewrite lookup_take_ge by lia. symmetry. apply lookup_ge_None_2. lia.
Qed.

(** C4. With from_loaded=True, a call of [train_and_evaluate] on a dict of
    models never calls [fit], leaves every object that existed before the
    call as it was (the models among them), and, when it returns, returns
    a pair whose second component is a new dict with the entries of [models]:
    each name with the very model passed in. *)
Theorem train_and_evaluate_from_loaded
    (s0 : state data fitted) (models : value data) kvs
    X_train X_test y_train y_test r s' :
  lookup_obj (heap s0) models = Some (ODict kvs) ->
  NoDup (dict_keys kvs) ->
  train_and_evaluate lib models X_train X_test y_train y_test true s0 = (r, s') ->
  Forall (fun ev => is_fit ev = false) (events_since s0 s') /\
  take (length (heap s0)) (heap s') = heap s0 /\
  forall v, r = Ok v ->
    exists results trained_models,
      v = VTuple [VRef results; VRef trained_models] /\
      length (heap s0) <= trained_models /\
      heap s' !! trained_models = Some (ODict kvs).
Proof.
  destruct s0 as [h0 t0]. cbn [heap trace]. intros Hm Hnd Hrun.
  rewrite (train_and_evaluate_unfold _ _ _ _ _ _ _ _ _ Hm) in Hrun.
  destruct (for_items _ kvs _) as [r1 s1] eqn:Hloop.
  assert (Hlr : (h0 ++ [ODict []; ODict []]) !! length h0
                = Some (ODict ([] : list (string * value data)))).
  { rewrite lookup_app_r by lia. by rewrite Nat.sub_diag. }
  assert (Hlt : (h0 ++ [ODict []; ODict []]) !! S (length h0)
                = Some (ODict ([] : list (string * value data)))).
  { rewrite lookup_app_r by lia. by replace (S (length h0) - length h0) with 1 by lia. }
  destruct (evaluate_loop _ _ _ _ _ _ _ _ _ _ _ _ _ _ Hlr Hlt
              ltac:(lia) eq_refl Hnd Hloop)
    as (evs & Ht1 & Hfr & Hnofit & Hr1).
  assert (Hs : s' = s1) by (by destruct r1 as [[?|]|?]; injection Hrun).
  subst s'. rewrite (events_since_app (State h0 t0) s1 evs Ht1).
  split; [by apply Hnofit|].
  split; [eapply frames_take; [| |exact Hfr]; lia|].
  intros v Hv. subst r. destruct r1 as [v1|e1]; [|discriminate].
  destruct Hr1 as (-> & R' & es & _ & Hlt1 & _). injection Hrun as <-.
  exists (length h0), (S (length h0)). repeat split; [lia|done].
Qed.

(** C5. When no call fails, [train_and_evaluate] on a dict of models returns a
    pair of new dicts. The first, [results], has the names of [models], in
    order; under each name is a record with exactly the keys accuracy, fpr,
    tpr and auc, where the accuracy is what [accuracy_score] returned for
    y_test and the model's [predict] on X_test, and fpr, tpr and auc are what
    [custom_roc_auc] returned for y_test and column 1 of the model's
    [predict_proba] on X_test. The second, [trained_models], has the entries
    of [models]. The events of the run are those of the iterations, one
    model after the other. *)
Theorem train_and_evaluate_results
    (s0 : state data fitted) (models : value data) kvs
    X_train X_test y_train y_test from_loaded r s' :
  lookup_obj (heap s0) models = Some (ODict kvs) ->
  NoDup (dict_keys kvs) ->
  train_and_evaluate lib models X_train X_test y_train y_test from_loaded s0
    = (r, s') ->
  Forall (fun ev => failed ev = false) (events_since s0 s') ->
  exists results trained_models R es,
    r = Ok (VTuple [VRef results; VRef trained_models]) /\
    heap s' !! results = Some (ODict R) /\
    heap s' !! trained_models = Some (ODict kvs) /\
    dict_keys R = dict_keys kvs /\
    events_since s0 s' =
      concat (zip_with (evaluation_events X_train X_test y_train y_test from_loaded)
                       kvs es) /\
    Forall2 (evaluated (heap s') R) kvs es.
Proof.
  destruct s0 as [h0 t0]. cbn [heap trace]. intros Hm Hnd Hrun Hok.
  rewrite (train_and_evaluate_unfold _ _ _ _ _ _ _ _ _ Hm) in Hrun.
  destruct (for_items _ kvs _) as [r1 s1] eqn:Hloop.
  assert (Hlr : (h0 ++ [ODict []; ODict []]) !! length h0
                = Some (ODict ([] : list (string * value data)))).
  { rewrite lookup_app_r by lia. by rewrite Nat.sub_diag. }
  assert (Hlt : (h0 ++ [ODict []; ODict []]) !! S (length h0)
                = Some (ODict ([] : list (string * value data)))).
  { rewrite lookup_app_r by lia. by replace (S (length h0) - length h0) with 1 by lia. }
  destruct (evaluate_loop _ _ _ _ _ _ _ _ _ _ _ _ _ _ Hlr Hlt
              ltac:(lia) eq_refl Hnd Hloop)
    as (evs & Ht1 & Hfr & Hnofit & Hr1).
  assert (Hs : s' = s1) by (by destruct r1 as [[?|]|?]; injection Hrun).
  subst s'. rewrite (events_since_app (State h0 t0) s1 evs Ht1) in *.
  destruct r1 as [v1|e1].
  - destruct Hr1 as (-> & R' & es & Hlr1 & Hlt1 & Hkeys & _ & Hevs & Hall).
    injection Hrun as <-.
    exists (length h0), (S (length h0)), R', es. by repeat split.
  - exfalso. apply Exists_exists in Hr1 as (ev & Hin & Hev).
    rewrite Forall_forall in Hok. specialize (Hok ev Hin). congruence.
Qed.

(** ** Exceptions end a run: nothing is called after a call has failed *)

Lemma fail_fast_ret {A} (a : A) : fail_fast (data:=data) (fitted:=fitted) (ret a).
Proof.
  intros s r s' [= <- <-]. exists []. rewrite app_nil_r. split; [done|]. constructor.
Qed.

Lemma fail_fast_silent {A} (c : M (data:=data) (fitted:=fitted) A) :
  (forall s, trace (snd (c s)) = trace s) -> fail_fast c.
Proof.
  intros Hc s r s' Hrun. exists []. rewrite app_nil_r.
  split; [by rewrite <- (Hc s), Hrun|].
  destruct r; cbn; [constructor|]. exists []. split; [by left|constructor].
Qed.

Lemma fail_fast_bind {A B} (c : M (data:=data) (fitted:=fitted) A) (k : A -> M B) :
  fail_fast c -> (forall a, fail_fast (k a)) -> fail_fast (bind c k).
Proof.
  intros Hc Hk s r s' Hrun. unfold bind in Hrun.
  destruct (c s) as [[a|e] s1] eqn:Hcs.
  - destruct (Hc _ _ _ Hcs) as (evs1 & Ht1 & Hq1).
    destruct (Hk a _ _ _ Hrun) as (evs2 & Ht2 & Hq2).
    exists (evs1 ++ evs2). split; [by rewrite Ht2, Ht1, <- app_assoc|].
    cbn in Hq1. destruct r as [b|e]; cbn in *.
    + by apply Forall_app.
    + destruct Hq2 as (evs' & Hshape & Hclean).
      exists (evs1 ++ evs'). split; [|by apply Forall_app].
      destruct Hshape as [->|[ev ->]]; [by left|right].
      exists ev. by rewrite app_assoc.
  - injection Hrun as <- <-. destruct (Hc _ _ _ Hcs) as (evs & Ht & Hq).
    exists evs. split; [done|exact Hq].
Qed.

Lemma fail_fast_print line : fail_fast (data:=data) (fitted:=fitted) (print line).
Proof.
  intros s r s' [= <- <-]. exists [EPrint line]. split; [done|].
  by repeat constructor.
Qed.

Lemma fail_fast_log_call (c : call) (o : exn + value data) :
  fail_fast (fitted:=fitted) (log_call c o).
Proof.
  intros [h t] r s' Hrun. rewrite log_call_run in Hrun. injection Hrun as <- <-.
  exists [ECall c o]. split; [done|]. destruct o as [e|v]; cbn.
  - exists []. split; [right; by exists (ECall c (inl e))|constructor].
  - by repeat constructor.
Qed.

Lemma fail_fast_at {A} (c c' : M (data:=data) (fitted:=fitted) A) :
  (forall s, c s = c' s) -> fail_fast c' -> fail_fast c.
Proof. intros Heq Hc s r s' Hrun. rewrite Heq in Hrun. by apply Hc. Qed.

Lemma fail_fast_fit model X y : fail_fast (fit lib model X y).
Proof.
  intros [h t] r s' Hrun. unfold fit in Hrun. cbn [heap trace] in Hrun.
  destruct model; try (by apply fail_fast_log_call in Hrun).
  cbn [lookup_obj] in Hrun.
  destruct (h !! l) as [[| |e]|]; try (by apply fail_fast_log_call in Hrun).
  destruct (est_fit lib h e X y) as [e' failure].
  by apply fail_fast_log_call in Hrun.
Qed.

Lemma fail_fast_predict model X : fail_fast (predict lib model X).
Proof.
  intros [h t] r s' Hrun. destruct (predict_run model X h t) as [o Ho].
  rewrite Ho in Hrun. by apply fail_fast_log_call in Hrun.
Qed.

Lemma fail_fast_predict_proba model X : fail_fast (predict_proba lib model X).
Proof.
  intros [h t] r s' Hrun. destruct (predict_proba_run model X h t) as [o Ho].
  rewrite Ho in Hrun. by apply fail_fast_log_call in Hrun.
Qed.

Lemma fail_fast_accuracy_score y_true y_pred :
  fail_fast (call_accuracy_score lib y_true y_pred).
Proof. intros s r s' Hrun. by apply fail_fast_log_call in Hrun. Qed.

Lemma fail_fast_classification_report y_true y_pred :
  fail_fast (call_classification_report lib y_true y_pred).
Proof. intros s r s' Hrun. by apply fail_fast_log_call in Hrun. Qed.

Lemma fail_fast_column a j : fail_fast (call_column lib a j).
Proof. intros s r s' Hrun. by apply fail_fast_log_call in Hrun. Qed.

Lemma fail_fast_custom_roc_auc y_true y_score :
  fail_fast (call_custom_roc_auc lib y_true y_score).
Proof.
  intros [h t] r s' Hrun. unfold call_custom_roc_auc in Hrun. cbn [heap trace] in Hrun.
  destruct (custom_roc_auc lib h y_true y_score) as [e|[[fpr tpr] auc]];
    injection Hrun as <- <-; eexists; (split; [done|]); cbn.
  - exists []. split; [right; by eexists|constructor].
  - by repeat constructor.
Qed.

Lemma fail_fast_fit_search gs X y : fail_fast (fit_search lib gs X y).
Proof.
  intros [h t] r s' Hrun. unfold fit_search in Hrun. cbn [heap trace] in Hrun.
  destruct (search_fit lib h gs X y) as [e|[best params]].
  - injection Hrun as <- <-. eexists. split; [done|]. cbn.
    exists []. split; [right; by eexists|constructor].
  - unfold bind, alloc, new_dict, alloc, emit, ret in Hrun. cbn in Hrun.
    injection Hrun as <- <-. eexists. split; [done|]. by repeat constructor.
Qed.

Lemma fail_fast_for_items body kvs :
  (forall name model, fail_fast (body name model)) ->
  fail_fast (data:=data) (fitted:=fitted) (for_items body kvs).
Proof.
  intros Hbody. induction kvs as [|[name model] kvs IH]; cbn [for_items].
  - apply fail_fast_ret.
  - apply fail_fast_bind; [apply Hbody|]. intros [v|]; [apply fail_fast_ret|done].
Qed.

Ltac fail_fast_steps :=
  repeat match goal with
         | |- fail_fast (bind _ _) => apply fail_fast_bind; [|intros ?]
         | |- fail_fast (ret _) => apply fail_fast_ret
         | |- fail_fast (print _) => apply fail_fast_print
         | |- fail_fast (fit _ _ _ _) => apply fail_fast_fit
         | |- fail_fast (predict _ _ _) => apply fail_fast_predict
         | |- fail_fast (predict_proba _ _ _) => apply fail_fast_predict_proba
         | |- fail_fast (call_accuracy_score _ _ _) => apply fail_fast_accuracy_score
         | |- fail_fast (call_classification_report _ _ _) =>
             apply fail_fast_classification_report
         | |- fail_fast (call_column _ _ _) => apply fail_fast_column
         | |- fail_fast (call_custom_roc_auc _ _ _) => apply fail_fast_custom_roc_auc
         | |- fail_fast (fit_search _ _ _ _) => apply fail_fast_fit_search
         | |- fail_fast (new_dict _) => apply fail_fast_silent; intros []; reflexivity
         | |- fail_fast (str _ _) => apply fail_fast_silent; intros []; reflexivity
         | |- fail_fast (items _) =>
             apply fail_fast_silent; intros [h t]; unfold items; cbn [heap];
             destruct (lookup_obj h _) as [[| |]|]; reflexivity
         | |- fail_fast (contains _ _) =>
             apply fail_fast_silent; intros [h t]; unfold contains; cbn [heap];
             destruct (lookup_obj h _) as [[| |]|]; reflexivity
         | |- fail_fast (getitem _ _) =>
             apply fail_fast_silent; intros [h t]; unfold getitem; cbn [heap];
             destruct (lookup_obj h _) as [[|kvs|]|]; try reflexivity;
             destruct (dict_get kvs _); reflexivity
         | |- fail_fast (setitem ?d _ _) =>
             apply fail_fast_silent; intros [h t]; unfold setitem; cbn [heap];
             destruct d; try reflexivity; cbn [lookup_obj];
             destruct (h !! _) as [[| |]|]; reflexivity
         | |- fail_fast (match ?x with _ => _ end) => destruct x
         | |- fail_fast (if ?b then _ else _) => destruct b
         end.

(** X1. In any run of [train_and_evaluate], on any arguments: if it returns,
    no call has failed; if it raises, every event before the last one is a
    print or a call that succeeded. An exception of a library call is caught
    nowhere and nothing is called after it. *)
Theorem train_and_evaluate_fail_fast
    (models X_train X_test y_train y_test : value data) (from_loaded : bool) :
  fail_fast (train_and_evaluate lib models X_train X_test y_train y_test from_loaded).
Proof.
  unfold train_and_evaluate. fail_fast_steps.
  apply fail_fast_for_items. intros name model.
  unfold evaluate_model. fail_fast_steps.
Qed.


(** ** What the two drivers do on any arguments *)

Lemma tune_models_run h0 t0 (models : value data) param_grids X y :
  tune_models lib models param_grids X y (State h0 t0) =
  match lookup_obj (h0 ++ [ODict []]) models with
  | Some (ODict kvs) =>
      match for_items (tune_model lib (VRef (length h0)) param_grids X y) kvs
                      (State (h0 ++ [ODict []]) t0) with
      | (Ok (Some v), s') => (Ok v, s')
      | (Ok None, s') => (Ok VNone, s')
      | (Raise e, s') => (Raise e, s')
      end
  | _ => (Raise (AttributeError "items"), State (h0 ++ [ODict []]) t0)
  end.
Proof.
  unfold tune_models, bind, new_dict, alloc, items, returned, ret. cbn.
  destruct (lookup_obj _ models) as [[xs|kvs|e]|]; try done.
  destruct (for_items _ _ _) as [[[v|]|e] s']; done.
Qed.

Lemma train_and_evaluate_run h0 t0 (models : value data)
    X_train X_test y_train y_test from_loaded :
  train_and_evaluate lib models X_train X_test y_train y_test from_loaded
                     (State h0 t0) =
  match lookup_obj (h0 ++ [ODict []; ODict []]) models with
  | Some (ODict kvs) =>
      match for_items (evaluate_model lib (VRef (length h0)) (VRef (S (length h0)))
                                      X_train X_test y_train y_test from_loaded)
                      kvs (State (h0 ++ [ODict []; ODict []]) t0) with
      | (Ok (Some v), s') => (Ok v, s')
      | (Ok None, s') => (Ok (VTuple [VRef (length h0); VRef (S (length h0))]), s')
      | (Raise e, s') => (Raise e, s')
      end
  | _ => (Raise (AttributeError "items"), State (h0 ++ [ODict []; ODict []]) t0)
  end.
Proof.
  unfold train_and_evaluate, bind, new_dict, alloc, items, ret. cbn.
  rewrite <- app_assoc. cbn. rewrite length_app. cbn. rewrite Nat.add_1_r.
  destruct (lookup_obj _ models) as [[xs|kvs|e]|]; try done.
  destruct (for_items _ _ _) as [[[v|]|e] s']; done.
Qed.

Lemma lookup_obj_not_dangling h new (v : value data) :
  dangling h v = false -> lookup_obj (h ++ new) v = lookup_obj h v.
Proof.
  destruct v; try done. cbn. intros Hd. apply bool_decide_eq_false_1 in Hd.
  apply lookup_app_l. lia.
Qed.

(** *** Events of a given kind only *)









Lemma evaluate_loop_frames lr lt X_train X_test y_train y_test from_loaded kvs :
  forall h t R T r s',
  h !! lr = Some (ODict R) -> h !! lt = Some (ODict T) -> lr <> lt ->
  for_items (evaluate_model lib (VRef lr) (VRef lt) X_train X_test y_train y_test
                            from_loaded) kvs (State h t) = (r, s') ->
  frames lr lt from_loaded h (heap s') /\ forall v, r <> Ok (Some v).
Proof.
  induction kvs as [|[name model] kvs IH]; intros h t R T r s' Hlr Hlt Hne Hrun.
  - cbn in Hrun. injection Hrun as <- <-. cbn [heap].
    split; [apply frames_refl|done].
  - cbn [for_items] in Hrun. unfold bind at 1 in Hrun.
    destruct (evaluate_model _ _ _ _ _ _ _ _ _ _ _) as [r1 [h1 t1]] eqn:Hbody.
    destruct (evaluate_model_run _ _ _ _ _ _ _ _ _ _ _ _ _ _ _ Hlr Hlt Hne Hbody)
      as (evs1 & _ & Hfr1 & _ & Hr1).
    cbn [heap trace] in *. destruct r1 as [v1|e1].
    + destruct Hr1 as (-> & e & _ & Hlr1 & Hlt1 & _).
      destruct (IH _ _ _ _ _ _ Hlr1 Hlt1 Hne Hrun) as (Hfr2 & Hv).
      split; [by eapply frames_trans|done].
    + injection Hrun as <- <-. by cbn [heap].
Qed.

(** X4. Whatever its arguments, a call of [train_and_evaluate] changes no
    dict and no list that existed before it (the mapping of models it is
    given among them), and with from_loaded=True no object at all: the only
    objects it may change are estimators, by fitting them. If it returns,
    it returns a pair of two dicts it has made itself. *)
Theorem train_and_evaluate_changes_estimators_only
    (s0 : state data fitted) (models X_train X_test y_train y_test : value data)
    (from_loaded : bool) :
  let run := train_and_evaluate lib models X_train X_test y_train y_test
                                from_loaded s0 in
  (forall l o, heap s0 !! l = Some o ->
               from_loaded = true \/ is_estimator o = false ->
               heap (snd run) !! l = Some o) /\
  forall v, fst run = Ok v ->
            v = VTuple [VRef (length (heap s0)); VRef (S (length (heap s0)))].
Proof.
  cbv zeta. destruct s0 as [h0 t0]. rewrite train_and_evaluate_run. cbn [heap].
  destruct (lookup_obj _ models) as [[xs|kvs|e]|];
    try (split; [intros l o Hl _; cbn; by apply lookup_app_l_Some|done]).
  destruct (for_items _ kvs _) as [r1 s1] eqn:Hloop.
  assert (Hlr : (h0 ++ [ODict []; ODict []]) !! length h0
                = Some (ODict ([] : list (string * value data)))).
  { rewrite lookup_app_r by lia. by rewrite Nat.sub_diag. }
  assert (Hlt : (h0 ++ [ODict []; ODict []]) !! S (length h0)
                = Some (ODict ([] : list (string * value data)))).
  { rewrite lookup_app_r by lia. by replace (S (length h0) - length h0) with 1 by lia. }
  destruct (evaluate_loop_frames _ _ _ _ _ _ _ _ _ _ _ _ _ _ Hlr Hlt
              ltac:(lia) Hloop) as ([_ Hfr] & Hv).
  split.
  - intros l o Hl Ho. pose proof (lookup_lt_Some _ _ _ Hl) as Hlt0.
    assert (Hs : heap (snd (match r1 with
                            | Ok (Some v) => (Ok v, s1)
                            | Ok None =>
                                (Ok (VTuple [VRef (length h0); VRef (S (length h0))]), s1)
                            | Raise e => (Raise e, s1)
                            end)) = heap s1) by (by destruct r1 as [[?|]|?]).
    rewrite Hs. apply Hfr; [by apply lookup_app_l_Some|lia|lia|done].
  - intros v Hr. destruct r1 as [[v1|]|e1]; cbn in Hr.
    + by destruct (Hv v1).
    + by injection Hr as <-.
    + discriminate.
Qed.


(** ** Edge cases: no models, and models that are no mapping *)

(** X5. On an empty dict of models [tune_models] returns None, not an empty
    dict, whatever [param_grids] is: it makes the dict, looks at nothing,
    prints nothing, and falls off the end of the loop. *)
Theorem tune_models_empty_models
    (s0 : state data fitted) (models param_grids X_train y_train : value data) :
  lookup_obj (heap s0) models = Some (ODict []) ->
  tune_models lib models param_grids X_train y_train s0 =
  (Ok VNone, State (heap s0 ++ [ODict []]) (trace s0)).
Proof.
  destruct s0 as [h0 t0]. cbn [heap trace]. intros Hm.
  by rewrite (tune_models_unfold _ _ _ _ _ _ _ Hm).
Qed.

(** X6. On an empty dict of models [train_and_evaluate] returns a pair of two
    new empty dicts and calls nothing, whatever the data and the flag. *)
Theorem train_and_evaluate_empty_models
    (s0 : state data fitted) (models X_train X_test y_train y_test : value data)
    (from_loaded : bool) :
  lookup_obj (heap s0) models = Some (ODict []) ->
  train_and_evaluate lib models X_train X_test y_train y_test from_loaded s0 =
  (Ok (VTuple [VRef (length (heap s0)); VRef (S (length (heap s0)))]),
   State (heap s0 ++ [ODict []; ODict []]) (trace s0)).
Proof.
  destruct s0 as [h0 t0]. cbn [heap trace]. intros Hm.
  by rewrite (train_and_evaluate_unfold _ _ _ _ _ _ _ _ _ Hm).
Qed.

(** X7. When [models] is no dict (None, a number, a string, a tuple, a list,
    an estimator), [tune_models] raises AttributeError for `items`, after it
    has made its empty dict and before it looks at [param_grids]. *)
Theorem tune_models_not_a_dict
    (s0 : state data fitted) (models param_grids X_train y_train : value data) :
  is_dict (heap s0) models = false ->
  dangling (heap s0) models = false ->
  tune_models lib models param_grids X_train y_train s0 =
  (Raise (AttributeError "items"), State (heap s0 ++ [ODict []]) (trace s0)).
Proof.
  destruct s0 as [h0 t0]. cbn [heap trace]. intros Hd Hdang.
  rewrite tune_models_run, lookup_obj_not_dangling by done.
  unfold is_dict in Hd. by destruct (lookup_obj h0 models) as [[| |]|].
Qed.

(** X8. When [models] is no dict, [train_and_evaluate] raises AttributeError
    for `items`, after it has made its two empty dicts; it calls nothing. *)
Theorem train_and_evaluate_not_a_dict
    (s0 : state data fitted) (models X_train X_test y_train y_test : value data)
    (from_loaded : bool) :
  is_dict (heap s0) models = false ->
  dangling (heap s0) models = false ->
  train_and_evaluate lib models X_train X_test y_train y_test from_loaded s0 =
  (Raise (AttributeError "items"),
   State (heap s0 ++ [ODict []; ODict []]) (trace s0)).
Proof.
  destruct s0 as [h0 t0]. cbn [heap trace]. intros Hd Hdang.
  rewrite train_and_evaluate_run, lookup_obj_not_dangling by done.
  unfold is_dict in Hd. by destruct (lookup_obj h0 models) as [[| |]|].
Qed.

(** ** The registries fed to the tuner *)

Lemma tune_all_grids h0 t0 (models : value data) param_grids X y kvs grids r s' :
  lookup_obj h0 models = Some (ODict kvs) ->
  NoDup (dict_keys kvs) ->
  lookup_obj h0 param_grids = Some (ODict grids) ->
  Forall (fun kv => is_Some (dict_get grids kv.1)) kvs ->
  tune_models lib models param_grids X y (State h0 t0) = (r, s') ->
  Forall (fun ev => failed ev = false) (events_since (State h0 t0) s') ->
  r = Ok VNone.
Proof.
  intros Hm Hnd Hpg Hgrids Hrun Hok.
  rewrite (tune_models_unfold _ _ _ _ _ _ _ Hm) in Hrun.
  destruct (for_items _ kvs _) as [r1 s1] eqn:Hloop.
  assert (Hlb : (h0 ++ [ODict []]) !! length h0
                = Some (ODict ([] : list (string * value data)))).
  { rewrite lookup_app_r by lia. by rewrite Nat.sub_diag. }
  assert (Hne : param_grids <> VRef (length h0)).
  { intros ->. cbn in Hpg. apply lookup_lt_Some in Hpg. lia. }
  destruct (tune_prefix _ _ _ _ _ _ _ _ _ _ _ Hlb (lookup_obj_app_l _ _ _ _ Hpg)
              Hne Hgrids Hnd Hloop)
    as (done' & new & evs & _ & Ht1 & [(-> & _)|(e & -> & Hex)]).
  - by injection Hrun as <- <-.
  - injection Hrun as <- <-.
    rewrite (events_since_app (State h0 t0) s1 evs Ht1) in Hok.
    exfalso. apply Exists_exists in Hex as (ev & Hin & Hev).
    rewrite Forall_forall in Hok. specialize (Hok ev Hin). congruence.
Qed.

Lemma dict_keys_shift_items n (kvs : list (string * value data)) :
  dict_keys (shift_items n kvs) = dict_keys kvs.
Proof.
  unfold dict_keys, shift_items. rewrite <- list_fmap_compose.
  by apply list_fmap_ext.
Qed.

(** X9. The module's own registries make the tuner return nothing: after
    [define_models] and [define_param_grid], [tune_models] on what they
    returned, when no search raises, returns None, since each of the three
    models has a grid. Handing that result on to [train_and_evaluate], as a
    pipeline tune-then-evaluate would, raises AttributeError for `items`. *)
Theorem registries_tuned_yield_none
    (s0 : state data fitted) (X_train y_train : value data)
    models s1 param_grids s2 r s3 :
  define_models s0 = (Ok models, s1) ->
  define_param_grid s1 = (Ok param_grids, s2) ->
  tune_models lib models param_grids X_train y_train s2 = (r, s3) ->
  Forall (fun ev => failed ev = false) (events_since s2 s3) ->
  r = Ok VNone /\
  forall X_test y_test from_loaded,
    fst (train_and_evaluate lib VNone X_train X_test y_train y_test from_loaded s3)
    = Raise (AttributeError "items").
Proof.
  intros Hm Hg Hrun Hok. split.
  2: { intros. destruct s3 as [h3 t3]. by rewrite train_and_evaluate_run. }
  pose proof (define_models_relocates s0) as Hm'.
  rewrite Hm in Hm'.
  match type of Hm' with
  | (Ok ?a, ?b) = (Ok ?c, ?d) =>
      assert (Ea : a = c) by congruence; assert (Eb : b = d) by congruence
  end.
  subst models s1. clear Hm Hm'.
  pose proof (define_param_grid_relocates
                (State (heap s0 ++ (shift_obj (length (heap s0))
                                      <$> heap (define_models (State [] [])).2))
                       (trace s0))) as Hg'.
  rewrite Hg in Hg'.
  match type of Hg' with
  | (Ok ?a, ?b) = (Ok ?c, ?d) =>
      assert (Ea : a = c) by congruence; assert (Eb : b = d) by congruence
  end.
  subst param_grids s2. clear Hg Hg'. cbn [heap trace] in *.
  set (h1 := heap s0 ++ _) in *.
  eapply (tune_all_grids _ _ _ _ _ _
            (shift_items (length (heap s0))
               [("Random Forest", VRef 0); ("KNN", VRef 1); ("MLP", VRef 2)])
            (shift_items (length h1)
               [("Random Forest", VRef 6); ("KNN", VRef 12); ("MLP", VRef 19)]));
    [| | | |exact Hrun|exact Hok].
  - apply lookup_obj_app_l. unfold h1. rewrite lookup_obj_shift.
    by vm_compute.
  - rewrite dict_keys_shift_items. apply (bool_decide_unpack _). by vm_compute.
  - rewrite lookup_obj_shift. by vm_compute.
  - repeat constructor; cbn [fst]; rewrite dict_get_shift_items; by eexists.
Qed.

End Facts.

(** ** The theorems at work on the small store *)

Lemma mlp_grid_is_not_3888 :
  exists registry s',
    define_param_grid Toy.init = (Ok registry, s') /\
    grid_combinations (heap s') registry "MLP" <> Some 3888.
Proof.
  exists (VRef 20), (snd (define_param_grid Toy.init)).
  split; [by vm_compute|]. vm_compute. discriminate.
Qed.

Lemma tune_models_returns_at_first_gridless_witness :
  let run := tune_models Toy.toy (VRef 3) (VRef 6) VNone VNone Toy.start in
  fst run = Ok (VRef 18) /\
  exists best_models,
    heap (snd run) !! 18 = Some (ODict best_models) /\
    dict_keys best_models = ["Random Forest"; "KNN"] /\
    dict_get best_models "KNN" = Some (VRef 1) /\
    dict_get best_models "MLP" = None.
Proof.
  cbv zeta.
  destruct (tune_models_returns_at_first_gridless Toy.toy Toy.start
              (VRef 3) (VRef 6) VNone VNone
              [("Random Forest", VRef 0); ("KNN", VRef 1); ("MLP", VRef 2)]
              [("Random Forest", VRef 5)]
              [("Random Forest", VRef 0)] "KNN" (VRef 1) [("MLP", VRef 2)]
              (fst (tune_models Toy.toy (VRef 3) (VRef 6) VNone VNone Toy.start))
              (snd (tune_models Toy.toy (VRef 3) (VRef 6) VNone VNone Toy.start)))
    as (bm & Hr & Hbm & Hkeys & Hname & _ & Hpost & _).
  - reflexivity.
  - apply (bool_decide_unpack _). vm_compute. reflexivity.
  - reflexivity.
  - reflexivity.
  - repeat constructor. by eexists.
  - reflexivity.
  - reflexivity.
  - vm_compute. repeat constructor.
  - split; [exact Hr|]. exists bm. repeat split; try assumption.
    apply Hpost. cbn. apply elem_of_cons. by left.
Defined.

Lemma tune_models_knn_passthrough_witness :
  tune_models Toy.toy (VRef 11) (VRef 7) VNone VNone Toy.start =
  (Ok (VRef 18), State (Toy.store ++ [ODict [("KNN", VRef 1)]]) []).
Proof.
  apply (tune_models_knn_passthrough Toy.toy Toy.start (VRef 11) (VRef 7)
           VNone VNone (VRef 1)); reflexivity.
Defined.

Lemma tune_models_all_grids_returns_none_witness :
  fst (tune_models Toy.toy (VRef 12) (VRef 8) VNone VNone Toy.start) = Ok VNone.
Proof.
  apply (tune_models_all_grids_returns_none Toy.toy Toy.start
           (VRef 12) (VRef 8) VNone VNone
           [("Random Forest", VRef 0); ("KNN", VRef 1)]
           [("Random Forest", VRef 5); ("KNN", VRef 10)]
           (fst (tune_models Toy.toy (VRef 12) (VRef 8) VNone VNone Toy.start))
           (snd (tune_models Toy.toy (VRef 12) (VRef 8) VNone VNone Toy.start))).
  - reflexivity.
  - apply (bool_decide_unpack _). vm_compute. reflexivity.
  - reflexivity.
  - repeat constructor; by eexists.
  - reflexivity.
  - vm_compute. repeat constructor.
Defined.

Lemma tune_models_search_call_witness :
  let run := tune_models Toy.toy (VRef 3) (VRef 8) VNone VNone Toy.start in
  exists best_models,
    heap (snd run) !! 21 = Some (OEstimator (Estimator "KNeighborsClassifier"
                                               [("n_neighbors", VInt 3)] (Some 1))) /\
    heap (snd run) !! 18 = Some (ODict best_models) /\
    dict_get best_models "KNN" = Some (VRef 21).
Proof.
  cbv zeta.
  pose proof (tune_models_search_call Toy.toy Toy.start (VRef 3) (VRef 8) VNone VNone
              [("Random Forest", VRef 0); ("KNN", VRef 1); ("MLP", VRef 2)]
              [("Random Forest", VRef 5); ("KNN", VRef 10)]
              [("Random Forest", VRef 0)] "KNN" (VRef 1) [("MLP", VRef 2)]
              (VRef 10)
              (snd (for_items (tune_model Toy.toy (VRef 18) (VRef 8) VNone VNone)
                              [("Random Forest", VRef 0)]
                              (State (Toy.store ++ [ODict []]) [])))
              (fst (tune_models Toy.toy (VRef 3) (VRef 8) VNone VNone Toy.start))
              (snd (tune_models Toy.toy (VRef 3) (VRef 8) VNone VNone Toy.start)))
    as H.
  specialize (H eq_refl).
  specialize (H ltac:(apply (bool_decide_unpack _); vm_compute; exact I)).
  specialize (H eq_refl eq_refl eq_refl).
  specialize (H ltac:(vm_compute; reflexivity)).
  specialize (H ltac:(vm_compute; reflexivity)).
  vm_compute in H.
  destruct H as (evs & bm & _ & _ & Hbest & Hbm & Hname & _).
  vm_compute.
  exists bm. repeat split; assumption.
Defined.

Lemma train_and_evaluate_from_loaded_witness :
  let run := train_and_evaluate Toy.toy (VRef 14) VNone VNone VNone VNone true
                                Toy.start in
  Forall (fun ev => is_fit ev = false) (events_since Toy.start (snd run)) /\
  take 18 (heap (snd run)) = Toy.store /\
  exists results trained_models,
    fst run = Ok (VTuple [VRef results; VRef trained_models]) /\
    heap (snd run) !! trained_models = Some (ODict [("KNN", VRef 13)]).
Proof.
  cbv zeta.
  destruct (train_and_evaluate_from_loaded Toy.toy Toy.start (VRef 14)
              [("KNN", VRef 13)] VNone VNone VNone VNone
              (fst (train_and_evaluate Toy.toy (VRef 14) VNone VNone VNone VNone true
                                       Toy.start))
              (snd (train_and_evaluate Toy.toy (VRef 14) VNone VNone VNone VNone true
                                       Toy.start)))
    as (Hfit & Htake & Hret).
  - reflexivity.
  - apply (bool_decide_unpack _). vm_compute. reflexivity.
  - reflexivity.
  - split; [exact Hfit|]. split; [exact Htake|].
    destruct (Hret (VTuple [VRef 18; VRef 19]) eq_refl) as (lr & lt & Hv & _ & Hlt).
    exists lr, lt. split; [by rewrite <- Hv|exact Hlt].
Defined.

Lemma train_and_evaluate_results_witness :
  let run := train_and_evaluate Toy.toy (VRef 3) VNone VNone VNone VNone false
                                Toy.start in
  exists results trained_models R,
    fst run = Ok (VTuple [VRef results; VRef trained_models]) /\
    heap (snd run) !! results = Some (ODict R) /\
    dict_keys R = ["Random Forest"; "KNN"; "MLP"] /\
    heap (snd run) !! trained_models
      = Some (ODict [("Random Forest", VRef 0); ("KNN", VRef 1); ("MLP", VRef 2)]).
Proof.
  cbv zeta.
  destruct (train_and_evaluate_results Toy.toy Toy.start (VRef 3)
              [("Random Forest", VRef 0); ("KNN", VRef 1); ("MLP", VRef 2)]
              VNone VNone VNone VNone false
              (fst (train_and_evaluate Toy.toy (VRef 3) VNone VNone VNone VNone false
                                       Toy.start))
              (snd (train_and_evaluate Toy.toy (VRef 3) VNone VNone VNone VNone false
                                       Toy.start)))
    as (lr & lt & R & es & Hr & Hlr & Hlt & Hkeys & _).
  - reflexivity.
  - apply (bool_decide_unpack _). vm_compute. reflexivity.
  - reflexivity.
  - vm_compute. repeat constructor.
  - exists lr, lt, R. repeat split; assumption.
Defined.

Lemma train_and_evaluate_fail_fast_witness :
  let run := train_and_evaluate Toy.toy (VRef 3) VNone VNone VNone VNone true
                                Toy.start in
  exists evs, trace (snd run) = trace Toy.start ++ evs /\ fails_last (fst run) evs.
Proof.
  cbv zeta.
  apply (train_and_evaluate_fail_fast Toy.toy (VRef 3) VNone VNone VNone VNone true
           Toy.start).
  apply surjective_pairing.
Defined.


Lemma tune_models_empty_models_witness :
  tune_models Toy.toy (VRef 7) VNone VNone VNone Toy.start =
  (Ok VNone, State (Toy.store ++ [ODict []]) []).
Proof.
  apply (tune_models_empty_models Toy.toy Toy.start (VRef 7) VNone VNone VNone).
  reflexivity.
Defined.

Lemma train_and_evaluate_empty_models_witness :
  train_and_evaluate Toy.toy (VRef 7) VNone VNone VNone VNone false Toy.start =
  (Ok (VTuple [VRef 18; VRef 19]), State (Toy.store ++ [ODict []; ODict []]) []).
Proof.
  apply (train_and_evaluate_empty_models Toy.toy Toy.start (VRef 7)
           VNone VNone VNone VNone false).
  reflexivity.
Defined.

Lemma tune_models_not_a_dict_witness :
  tune_models Toy.toy VNone (VRef 6) VNone VNone Toy.start =
  (Raise (AttributeError "items"), State (Toy.store ++ [ODict []]) []).
Proof.
  apply (tune_models_not_a_dict Toy.toy Toy.start VNone (VRef 6) VNone VNone);
    reflexivity.
Defined.

Lemma train_and_evaluate_not_a_dict_witness :
  train_and_evaluate Toy.toy (VRef 4) VNone VNone VNone VNone false Toy.start =
  (Raise (AttributeError "items"), State (Toy.store ++ [ODict []; ODict []]) []).
Proof.
  apply (train_and_evaluate_not_a_dict Toy.toy Toy.start (VRef 4)
           VNone VNone VNone VNone false); reflexivity.
Defined.

Lemma registries_tuned_yield_none_witness :
  let s1 := snd (define_models Toy.init) in
  let s2 := snd (define_param_grid s1) in
  let run := tune_models Toy.toy (VRef 3) (VRef 24) VNone VNone s2 in
  fst run = Ok VNone /\
  fst (train_and_evaluate Toy.toy VNone VNone VNone VNone VNone false (snd run))
  = Raise (AttributeError "items").
Proof.
  cbv zeta.
  destruct (registries_tuned_yield_none Toy.toy Toy.init VNone VNone
              (VRef 3) (snd (define_models Toy.init))
              (VRef 24) (snd (define_param_grid (snd (define_models Toy.init))))
              (fst (tune_models Toy.toy (VRef 3) (VRef 24) VNone VNone
                      (snd (define_param_grid (snd (define_models Toy.init))))))
              (snd (tune_models Toy.toy (VRef 3) (VRef 24) VNone VNone
                      (snd (define_param_grid (snd (define_models Toy.init)))))))
    as [Hr Hnext].
  - by vm_compute.
  - by vm_compute.
  - apply surjective_pairing.
  - vm_compute. repeat constructor.
  - split; [exact Hr|apply Hnext].
Defined.
